(** * rmsd_stats_matlab: aggregation of per-sample RMSD tables

    A shallow embedding of [rmsd_stats_matlab.py]: [get_conditions] and
    [extract_rmsd], with the string, path and regular-expression operations
    they call, and the properties of the resulting table. *)

From Stdlib Require Import ZArith List Bool Ascii String Lia.
From Stdlib Require Import Numbers.DecimalString Sorting.Mergesort Sorting.Sorted.
From Stdlib Require Import Sorting.Permutation Structures.Orders.
Import ListNotations.

Local Open Scope string_scope.
Local Open Scope list_scope.

(** ** Python string operations *)

Module Str.

Definition tab : ascii := "009"%char.
Definition newline : ascii := "010"%char.
Definition dquote : ascii := "034"%char.

Definition chr (c : ascii) : string := String c EmptyString.

(** [s.startswith(p)] *)
Fixpoint startswith (s p : string) : bool :=
  match p with
  | EmptyString => true
  | String a p' =>
      match s with
      | EmptyString => false
      | String b s' => Ascii.eqb a b && startswith s' p'
      end
  end.

(** [p in s] *)
Fixpoint contains (s p : string) : bool :=
  startswith s p ||
  match s with
  | EmptyString => false
  | String _ s' => contains s' p
  end.

(** [s.endswith(p)] *)
Fixpoint endswith (s p : string) : bool :=
  String.eqb s p ||
  match s with
  | EmptyString => false
  | String _ s' => endswith s' p
  end.

(** [str(n)] for an [int]. *)
Definition of_nat (n : nat) : string := NilEmpty.string_of_uint (Nat.to_uint n).
Definition of_Z (z : Z) : string := NilEmpty.string_of_int (Z.to_int z).

Fixpoint spaces (n : nat) : string :=
  match n with
  | O => EmptyString
  | S n' => String " " (spaces n')
  end.

(** The format specification [{s:<w}]: left-justified in a field of width [w]. *)
Definition ljust (s : string) (w : nat) : string :=
  s ++ spaces (w - String.length s).

(** [s.rfind("/") + 1]: the position just after the last slash, 0 without one. *)
Fixpoint after_last_slash (s : string) : nat :=
  match s with
  | EmptyString => 0
  | String c s' =>
      match after_last_slash s' with
      | O => if Ascii.eqb c "/" then 1 else 0
      | S k => S (S k)
      end
  end.

Fixpoint all_slashes (s : string) : bool :=
  match s with
  | EmptyString => true
  | String c s' => Ascii.eqb c "/" && all_slashes s'
  end.

(** [s.rstrip("/")] *)
Fixpoint rstrip_slash (s : string) : string :=
  match s with
  | EmptyString => EmptyString
  | String c s' =>
      match rstrip_slash s' with
      | EmptyString => if Ascii.eqb c "/" then EmptyString else chr c
      | r => String c r
      end
  end.

End Str.

(** ** [os.path] (POSIX flavour) *)

Module Path.

(** [os.path.basename(p)]: [p[i:]] with [i = p.rfind("/") + 1]. *)
Definition basename (p : string) : string :=
  let i := Str.after_last_slash p in
  substring i (String.length p - i) p.

(** [os.path.dirname(p)]: [p[:i]], its trailing slashes removed unless it
    holds nothing but slashes. *)
Definition dirname (p : string) : string :=
  let head := substring 0 (Str.after_last_slash p) p in
  if negb (String.eqb head "") && negb (Str.all_slashes head)
  then Str.rstrip_slash head
  else head.

(** [os.path.join(a, b)] *)
Definition join (a b : string) : string :=
  if Str.startswith b "/" then b
  else if String.eqb a "" || Str.endswith a "/" then a ++ b
  else a ++ "/" ++ b.

End Path.

(** ** The regular expression [RMSD_(.+)_.+\.csv]

    A pattern is a sequence of literal characters and greedy [.+] items, one of
    which is the capturing group.  [match_here] is the backtracking matcher of
    [re]: a [.+] takes as many characters as it can (no newline) and gives
    them back one at a time until the rest of the pattern matches. *)

Module Re.

Inductive item : Type :=
| Lit (c : ascii)
| DotPlus
| GroupDotPlus.

(** The matcher returns [group(1)] of the match found at the start of [s]. *)
Fixpoint match_here (p : list item) : string -> option string :=
  match p with
  | [] => fun _ => Some EmptyString
  | Lit c :: p' => fun s =>
      match s with
      | EmptyString => None
      | String b s' => if Ascii.eqb c b then match_here p' s' else None
      end
  | DotPlus :: p' =>
      fix dot (s : string) : option string :=
        match s with
        | EmptyString => None
        | String b s' =>
            if Ascii.eqb b Str.newline then None
            else match dot s' with
                 | Some g => Some g
                 | None => match_here p' s'
                 end
        end
  | GroupDotPlus :: p' =>
      fix grp (s : string) : option string :=
        match s with
        | EmptyString => None
        | String b s' =>
            if Ascii.eqb b Str.newline then None
            else match grp s' with
                 | Some g => Some (String b g)
                 | None =>
                     match match_here p' s' with
                     | Some _ => Some (Str.chr b)
                     | None => None
                     end
                 end
        end
  end.

(** [pattern.search(s)]: the match at the leftmost position that has one. *)
Fixpoint search (p : list item) (s : string) : option string :=
  match match_here p s with
  | Some g => Some g
  | None =>
      match s with
      | EmptyString => None
      | String _ s' => search p s'
      end
  end.

Fixpoint lits (s : string) : list item :=
  match s with
  | EmptyString => []
  | String c s' => Lit c :: lits s'
  end.

End Re.

(** [pattern = re.compile("RMSD_(.+)_.+\\.csv")] and [pattern.pattern]. *)
Definition pattern : list Re.item :=
  Re.lits "RMSD_" ++ [Re.GroupDotPlus] ++ Re.lits "_" ++ [Re.DotPlus] ++ Re.lits ".csv".

Definition pattern_source : string := "RMSD_(.+)_.+\.csv".

(** [c in s] for a character, and [s.count(c)]. *)
Fixpoint has_char (c : ascii) (s : string) : bool :=
  match s with
  | EmptyString => false
  | String b s' => Ascii.eqb b c || has_char c s'
  end.

Fixpoint count_char (c : ascii) (s : string) : nat :=
  match s with
  | EmptyString => 0
  | String b s' => (if Ascii.eqb b c then 1 else 0) + count_char c s'
  end.

(** ** Tables

    A cell of a table is a Python value: a text, an integer, a float, a
    boolean, or the missing value [NaN] (itself a float).  A float other than
    [NaN] is carried as the text [repr] gives it, its shortest round-trip
    representation, which stands for exactly one value. *)

Inductive value : Type :=
| Text (s : string)
| NaN
| Int (n : Z)
| Float (repr : string)
| Bool (b : bool).

(** A cell of the manifest. *)
Definition cell : Type := value.

(** [str(c)], as an f-string formats the cell. *)
Definition cell_str (c : cell) : string :=
  match c with
  | Text s => s
  | NaN => "nan"
  | Int n => Str.of_Z n
  | Float r => r
  | Bool b => if b then "True" else "False"
  end.

(** One row of the conditions table, under the labels [get_conditions] sets. *)
Module Manifest.
Record row : Type := Row { condition : cell; path : cell; color : cell }.
End Manifest.

(** A per-sample table as [pd.read_csv] returns it: the labels of its header
    and, row by row, the cells under [frames] and [RMSD], typed as pandas
    types the columns (the cells of a label the header lacks are never
    read). *)
Record DataFrame : Type :=
  { columns : list string; values : list (value * value) }.

(** A sheet of the index file as [pd.read_excel] returns it, with the two
    columns the code reads: row by row, the cell under [sample] (first sheet)
    or [condition] (second sheet) and the cell under [index].  The index of a
    column of whole numbers is an [Int]; a column with a blank cell is a
    float column, and its indices are [Float]s. *)
Definition sheet : Type := list (value * value).

(** The accumulator [data] of [extract_rmsd]: four parallel lists. *)
Module Data.
Record t : Type :=
  Make { sample : list value; condition : list value; frame : list value;
         RMSD : list value }.
Definition empty : t := Make [] [] [] [].
End Data.

(** A row of the output table. *)
Record out_row : Type :=
  OutRow { r_sample : value; r_condition : value; r_frame : value; r_RMSD : value }.

(** ** The world the program reads

    [None] stands for the call raising: [os.listdir] on a path that is not a
    readable directory, a pandas reader on a file it cannot load.
    [read_lines] gives the lines of a headerless CSV file, each as the fields
    the tokenizer of pandas splits it into (at the commas outside quotes, the
    quotes taken off).  The last two fields are the arithmetic of the
    platform: [to_double] is the float a field reads as, by its [repr], when
    it reads as a number, and [float_of_big_int] is [repr(float(n))] for an
    integer beyond 2^53, which a float does not hold exactly. *)
Record World : Type :=
  { listdir : string -> option (list string);
    read_csv : string -> option DataFrame;
    read_excel : string -> nat -> option sheet;
    read_lines : string -> option (list (list string));
    samefile : string -> string -> bool;
    to_double : string -> option string;
    float_of_big_int : Z -> string }.

(** [repr(float(n))]: up to 2^53 in absolute value the conversion is exact,
    and the text is that of the integer followed by [.0]. *)
Definition float_of_int (w : World) (n : Z) : string :=
  if (Z.abs n <=? 2 ^ 53)%Z then Str.of_Z n ++ ".0" else float_of_big_int w n.

Definition is_number (v : value) : bool :=
  match v with
  | Int _ | Float _ | NaN => true
  | Text _ | Bool _ => false
  end.

Definition is_int (v : value) : bool :=
  match v with
  | Int _ => true
  | _ => false
  end.

(** [x == y] on two floats given by their texts: the same text, or the two
    zeros. *)
Definition float_zero (r : string) : bool := String.eqb r "0.0" || String.eqb r "-0.0".

Definition float_eqb (r r' : string) : bool :=
  String.eqb r r' || (float_zero r && float_zero r').

(** The integer a value counts as among numbers: a boolean is 0 or 1. *)
Definition as_int (v : value) : option Z :=
  match v with
  | Int n => Some n
  | Bool b => Some (if b then 1 else 0)%Z
  | _ => None
  end.

(** [x == y] between two cells.  A text equals the same text only and [NaN]
    equals nothing; an integer equals the float of the same value (taken
    here for the integers a float holds in positional notation). *)
Definition value_eqb (x y : value) : bool :=
  match x, y with
  | Text s, Text t => String.eqb s t
  | Text _, _ | _, Text _ | NaN, _ | _, NaN => false
  | Float r, Float r' => float_eqb r r'
  | Float r, v | v, Float r =>
      match as_int v with
      | Some n => float_eqb r (Str.of_Z n ++ ".0")
      | None => false
      end
  | u, v =>
      match as_int u, as_int v with
      | Some m, Some n => Z.eqb m n
      | _, _ => false
      end
  end.

(** ** Effects: log records, files written, and how a call ends *)

Inductive level : Type := INFO | WARNING | ERROR.

Inductive event : Type :=
| Log (l : level) (msg : string)
| ToCsv (file : string) (text : string)
| CopyFile (src dst : string).

Inductive exn : Type :=
| IndexError
| KeyError (key : string)
| ValueError
| TypeError
| OSError
| ReadError
| ParserError
| EmptyDataError
| SameFileError.

Inductive outcome (A : Type) : Type :=
| Ok (a : A)
| Exit (status : Z)
| Raise (e : exn).
Arguments Ok {A} a.
Arguments Exit {A} status.
Arguments Raise {A} e.

(** A computation: how it ends and the events it emitted, in order. *)
Definition M (A : Type) : Type := outcome A * list event.

Definition ret {A} (a : A) : M A := (Ok a, []).

Definition bind {A B} (m : M A) (k : A -> M B) : M B :=
  match m with
  | (Ok a, t) => let '(r, t') := k a in (r, t ++ t')
  | (Exit s, t) => (Exit s, t)
  | (Raise e, t) => (Raise e, t)
  end.

Notation "x <- m ;; k" := (bind m (fun x => k))
  (at level 61, m at next level, right associativity).
Notation "m ;;; k" := (bind m (fun _ => k))
  (at level 61, right associativity).

Definition emit (e : event) : M unit := (Ok tt, [e]).
Definition logging (l : level) (msg : string) : M unit := emit (Log l msg).
Definition sys_exit {A} (status : Z) : M A := (Exit status, []).
Definition raise {A} (e : exn) : M A := (Raise e, []).

Definition or_raise {A} (o : option A) (e : exn) : M A :=
  match o with
  | Some a => ret a
  | None => raise e
  end.

(** The exit status of the process. *)
Definition exit_status {A} (m : M A) : Z :=
  match fst m with
  | Ok _ => 0
  | Exit s => s
  | Raise _ => 1
  end.

(** [for x in l: s = body(x, s)] *)
Fixpoint for_each {X S} (body : X -> S -> M S) (l : list X) (s : S) : M S :=
  match l with
  | [] => ret s
  | x :: l' => s' <- body x s ;; for_each body l' s'
  end.

(** ** [sorted] on strings: code-point order *)

Module StringOrder <: TotalLeBool.
Definition t := string.
Definition leb := String.leb.
Theorem leb_total : forall a1 a2, leb a1 a2 = true \/ leb a2 a1 = true.
Proof. exact String.leb_total. Qed.
End StringOrder.

Module StringSort := Sort StringOrder.

Definition sorted (l : list string) : list string := StringSort.sort l.

(** ** [get_conditions]

    [pd.read_csv(path, sep=",", header=None)] with its defaults: blank lines
    are skipped, the first line sets the number of columns, a longer line is a
    parse error, a shorter one is filled up with missing values, and a field
    that is one of the missing-value markers is loaded as [NaN].  Each column
    is then given a type: its fields are read as integers when all of them
    are (as floats when some are missing), else as floats, else as booleans,
    and are kept as texts when none of this applies. *)

Definition na_values : list string :=
  [""; "#N/A"; "#N/A N/A"; "#NA"; "-1.#IND"; "-1.#QNAN"; "-NaN"; "-nan";
   "1.#IND"; "1.#QNAN"; "<NA>"; "N/A"; "NA"; "NULL"; "NaN"; "None"; "n/a";
   "nan"; "null"].

Definition is_na (s : string) : bool := existsb (String.eqb s) na_values.


(** The integer a field reads as: blanks, a sign, digits, blanks. *)
Definition is_space (c : ascii) : bool :=
  Ascii.eqb c " " || Ascii.eqb c Str.tab || Ascii.eqb c Str.newline
  || Ascii.eqb c "011" || Ascii.eqb c "012" || Ascii.eqb c "013".

Fixpoint lstrip (s : string) : string :=
  match s with
  | EmptyString => EmptyString
  | String c s' => if is_space c then lstrip s' else s
  end.

Fixpoint rstrip (s : string) : string :=
  match s with
  | EmptyString => EmptyString
  | String c s' =>
      match rstrip s' with
      | EmptyString => if is_space c then EmptyString else Str.chr c
      | r => String c r
      end
  end.

Definition digit (c : ascii) : option Z :=
  let n := (Z.of_nat (nat_of_ascii c) - 48)%Z in
  if (0 <=? n)%Z && (n <=? 9)%Z then Some n else None.

Fixpoint digits (s : string) (acc : Z) : option Z :=
  match s with
  | EmptyString => Some acc
  | String c s' =>
      match digit c with
      | Some d => digits s' (10 * acc + d)%Z
      | None => None
      end
  end.

Definition number (s : string) : option Z :=
  match s with
  | EmptyString => None
  | _ => digits s 0
  end.

Definition int_token (s : string) : option Z :=
  match rstrip (lstrip s) with
  | String "-" d => option_map Z.opp (number d)
  | String "+" d => number d
  | d => number d
  end.

Definition true_values : list string := ["True"; "TRUE"; "true"].
Definition false_values : list string := ["False"; "FALSE"; "false"].

Definition bool_token (s : string) : option bool :=
  if existsb (String.eqb s) true_values then Some true
  else if existsb (String.eqb s) false_values then Some false
  else None.

(** How the fields of a column are converted. *)
Inductive conversion : Type :=
| AsInt
| IntAsFloat
| AsFloat
| AsBool
| AsText.

(** The type inference on a column, from the fields that are not missing:
    [int64] when all are integers of that range (a column of integers with
    missing values is then converted to [float64]), [uint64] for a complete
    column of integers below 2^64, [float64] when all read as floats, [bool]
    when all are booleans, and [object], the fields kept as texts,
    otherwise. *)
Definition conversion_of (w : World) (col : list string) : conversion :=
  let present := filter (fun s => negb (is_na s)) col in
  let complete := forallb (fun s => negb (is_na s)) col in
  let in_range lo hi :=
    forallb (fun s => match int_token s with
                      | Some n => (lo <=? n)%Z && (n <? hi)%Z
                      | None => false
                      end) present in
  if in_range (- 2 ^ 63)%Z (2 ^ 63)%Z then (if complete then AsInt else IntAsFloat)
  else if complete && in_range 0%Z (2 ^ 64)%Z then AsInt
  else if forallb (fun s => match to_double w s with
                            | Some _ => true
                            | None => false
                            end) present then AsFloat
  else if forallb (fun s => match bool_token s with
                            | Some _ => true
                            | None => false
                            end) present then AsBool
  else AsText.

Definition convert (w : World) (c : conversion) (s : string) : cell :=
  if is_na s then NaN
  else match c with
       | AsInt => match int_token s with
                  | Some n => Int n
                  | None => Text s
                  end
       | IntAsFloat => match int_token s with
                       | Some n => Float (float_of_int w n)
                       | None => Text s
                       end
       | AsFloat => match to_double w s with
                    | Some r => Float r
                    | None => Text s
                    end
       | AsBool => match bool_token s with
                   | Some b => Bool b
                   | None => Text s
                   end
       | AsText => Text s
       end.

Fixpoint is_whitespace (s : string) : bool :=
  match s with
  | EmptyString => true
  | String c s' => (Ascii.eqb c " " || Ascii.eqb c Str.tab) && is_whitespace s'
  end.

(** A blank line: nothing on it but spaces and tabs. *)
Definition is_blank (l : list string) : bool :=
  match l with
  | [] => true
  | [s] => is_whitespace s
  | _ => false
  end.

(** The field of a line in column [j]; a line that is too short has a
    missing field there. *)
Definition field (j : nat) (l : list string) : string := nth j l "".

Definition read_csv_noheader (w : World) (file : string) : M (nat * list (list cell)) :=
  lines <- or_raise (read_lines w file) ReadError ;;
  match filter (fun l => negb (is_blank l)) lines with
  | [] => raise EmptyDataError
  | first :: rest =>
      let width := List.length first in
      if existsb (fun l => width <? List.length l)%nat rest then raise ParserError
      else
        let conv j := conversion_of w (map (field j) (first :: rest)) in
        ret (width,
             map (fun l => map (fun j => convert w (conv j) (field j l)) (seq 0 width))
                 (first :: rest))
  end.

Definition to_row (r : list cell) : Manifest.row :=
  Manifest.Row (nth 0 r NaN) (nth 1 r NaN) (nth 2 r NaN).

(** [df.columns = ["condition", "path", "color"]] needs a table of three columns. *)
Definition get_conditions (w : World) (file : string) : M (list Manifest.row) :=
  df <- read_csv_noheader w file ;;
  let '(width, rows) := df in
  if (width =? 3)%nat then ret (map to_row rows) else raise ValueError.

(** [conditions.iterrows()]: the rows of the table, one after the other.  A
    table of numbers only whose columns are not all integer columns gives
    rows of floats; in any other table the cells are given as they are. *)
Definition upcast (w : World) (v : value) : value :=
  match v with
  | Int n => Float (float_of_int w n)
  | _ => v
  end.

Definition iterrows (w : World) (df : list Manifest.row) : list Manifest.row :=
  let cells :=
    flat_map (fun r => [Manifest.condition r; Manifest.path r; Manifest.color r]) df in
  if forallb is_number cells && negb (forallb is_int cells)
  then map (fun r => Manifest.Row (upcast w (Manifest.condition r))
                                  (upcast w (Manifest.path r))
                                  (upcast w (Manifest.color r))) df
  else df.

(** ** [extract_rmsd] *)

(** The test of the comprehension over [os.listdir]. *)
Definition keep (fn : string) : bool :=
  Str.startswith fn "RMSD" && negb (Str.contains fn "histogram") && Str.endswith fn ".csv".

(** [df[label]] for the two labels read. *)
Definition has_column (df : DataFrame) (label : string) : bool :=
  existsb (String.eqb label) (columns df).

Definition column_frames (df : DataFrame) : M (list value) :=
  if has_column df "frames" then ret (map fst (values df)) else raise (KeyError "frames").

Definition column_RMSD (df : DataFrame) : M (list value) :=
  if has_column df "RMSD" then ret (map snd (values df)) else raise (KeyError "RMSD").

(** [index[index[label] == name]["index"].values]: the indices of the rows
    whose name equals [name], a text for a sample and a cell of the manifest
    for a condition; [.values[0]] is its first element. *)
Definition index_values (sh : sheet) (name : string) : list value :=
  map snd (filter (fun r => value_eqb (fst r) (Text name)) sh).

Definition index_values_cell (sh : sheet) (name : cell) : list value :=
  map snd (filter (fun r => value_eqb (fst r) name) sh).

Definition first_value (l : list value) : option value := hd_error l.

Definition msg_no_files (cond : cell) : string :=
  "Condition " ++ cell_str cond ++ ": no RMSD files, this condition is skipped.".

Definition msg_retrieving (n : nat) (cond : cell) : string :=
  "Retrieving " ++ Str.of_nat n ++ " file" ++ (if (1 <? n)%nat then "s" else "")
  ++ " data for condition: " ++ cell_str cond.

Definition msg_no_match (item : string) : string :=
  Str.chr Str.tab ++ "No match between the pattern '" ++ pattern_source
  ++ "' and the file name " ++ item ++ ".".

Definition msg_frames (sample : string) (n : nat) : string :=
  let prefix := (Str.chr Str.tab ++ Str.chr Str.tab ++ "- " ++ sample ++ ":")%string in
  Str.ljust prefix 50 ++ Str.of_nat n ++ " frames.".

Definition msg_no_condition (cond : cell) (index_file : string) : string :=
  Str.chr Str.dquote ++ cell_str cond ++ Str.chr Str.dquote
  ++ " does not exists in the second tab of the index file: " ++ index_file.

Definition msg_written (data_out_path : string) : string :=
  "RMSD data by sample and condition written: " ++ data_out_path.

Definition msg_copied (destination_index_file : string) : string :=
  "Index file copied to: " ++ destination_index_file.

Section Extract.

Variable w : World.
Variables index_samples index_conditions : sheet.
Variable index_file : string.

(** The body of [for item in sorted(by_condition)], lines 98-119; [dir] is
    [row_condition["path"]] and [cond] is [row_condition["condition"]]. *)
Definition item_body (dir : string) (cond : cell) (item : string) (data : Data.t)
  : M Data.t :=
  sample <- match Re.search pattern item with
            | Some g => ret g
            | None => logging ERROR (msg_no_match item) ;;; sys_exit 1
            end ;;
  df_current <- or_raise (read_csv w (Path.join dir item)) ReadError ;;
  current_frames <- column_frames df_current ;;
  logging INFO (msg_frames sample (List.length current_frames)) ;;;
  sample_index <- or_raise (first_value (index_values index_samples sample)) IndexError ;;
  let data1 :=
    Data.Make (Data.sample data ++ repeat sample_index (List.length current_frames))
              (Data.condition data) (Data.frame data) (Data.RMSD data) in
  condition_index <- match first_value (index_values_cell index_conditions cond) with
                     | Some i => ret i
                     | None => logging ERROR (msg_no_condition cond index_file) ;;;
                               sys_exit 1
                     end ;;
  let data2 :=
    Data.Make (Data.sample data1)
              (Data.condition data1 ++ repeat condition_index (List.length current_frames))
              (Data.frame data1) (Data.RMSD data1) in
  let data3 :=
    Data.Make (Data.sample data2) (Data.condition data2)
              (Data.frame data2 ++ current_frames) (Data.RMSD data2) in
  current_RMSD <- column_RMSD df_current ;;
  ret (Data.Make (Data.sample data3) (Data.condition data3) (Data.frame data3)
                 (Data.RMSD data3 ++ current_RMSD)).

(** [os.listdir(row_condition["path"])]: a float is a type error; an
    integer or a boolean is taken for a file descriptor, which is not that of
    a directory. *)
Definition os_listdir (p : cell) : M (list string) :=
  match p with
  | Text dir => or_raise (listdir w dir) OSError
  | Int _ | Bool _ => raise OSError
  | Float _ | NaN => raise TypeError
  end.

(** The body of [for _, row_condition in conditions.iterrows()], lines
    89-119, on the pair of [data] and [conditions_to_remove]. *)
Definition condition_body (row_condition : Manifest.row) (st : Data.t * list cell)
  : M (Data.t * list cell) :=
  let '(data, conditions_to_remove) := st in
  entries <- os_listdir (Manifest.path row_condition) ;;
  let by_condition := filter keep entries in
  if (List.length by_condition =? 0)%nat then
    logging WARNING (msg_no_files (Manifest.condition row_condition)) ;;;
    ret (data, conditions_to_remove ++ [Manifest.condition row_condition])
  else
    logging INFO (msg_retrieving (List.length by_condition) (Manifest.condition row_condition)) ;;;
    data' <- for_each (item_body (cell_str (Manifest.path row_condition))
                                 (Manifest.condition row_condition))
                      (sorted by_condition) data ;;
    ret (data', conditions_to_remove).

End Extract.

(** [pd.DataFrame.from_dict(data)]: the columns must have one length. *)
Definition from_dict (data : Data.t) : M (list out_row) :=
  let n := List.length (Data.sample data) in
  if (List.length (Data.condition data) =? n)%nat && (List.length (Data.frame data) =? n)%nat
     && (List.length (Data.RMSD data) =? n)%nat
  then ret (map (fun x => let '(s, c, f, r) := x in OutRow s c f r)
                (combine (combine (combine (Data.sample data) (Data.condition data))
                                  (Data.frame data)) (Data.RMSD data)))
  else raise ValueError.

(** [df.to_csv(path, sep=',', index=False)].

    [from_dict] types each column from its cells: a column of numbers that
    are not all integers is a [float64] column, where an integer is written
    as a float; in any other column a cell is written as [str] gives it.  A
    missing value is written as the empty text. *)
Definition float_column (col : list value) : bool :=
  forallb is_number col && negb (forallb is_int col).

Definition value_text (w : World) (col : list value) (v : value) : string :=
  match v with
  | Text s => s
  | NaN => ""
  | Int n => if float_column col then float_of_int w n else Str.of_Z n
  | Float r => r
  | Bool b => if b then "True" else "False"
  end.

(** The writer of [csv] with its minimal quoting: a field that holds a comma,
    a quote or a line feed (the line terminator) is put between quotes, its
    quotes doubled. *)
Definition needs_quotes (s : string) : bool :=
  has_char "," s || has_char Str.dquote s || has_char Str.newline s.

Fixpoint double_quotes (s : string) : string :=
  match s with
  | EmptyString => EmptyString
  | String c s' =>
      if Ascii.eqb c Str.dquote then String c (String c (double_quotes s'))
      else String c (double_quotes s')
  end.

Definition csv_field (s : string) : string :=
  if needs_quotes s then Str.chr Str.dquote ++ double_quotes s ++ Str.chr Str.dquote
  else s.

Definition csv_record (fields : list string) : string :=
  String.concat "," (map csv_field fields) ++ Str.chr Str.newline.

Definition labels : list string := ["sample"; "condition"; "frame"; "RMSD"].

(** The texts of the four cells of a row of the table [df]. *)
Definition row_text (w : World) (df : list out_row) (r : out_row) : list string :=
  [value_text w (map r_sample df) (r_sample r);
   value_text w (map r_condition df) (r_condition r);
   value_text w (map r_frame df) (r_frame r);
   value_text w (map r_RMSD df) (r_RMSD r)].

(** The header and one line per row. *)
Definition to_csv_text (w : World) (df : list out_row) : string :=
  csv_record labels ++ String.concat "" (map (fun r => csv_record (row_text w df r)) df).

(** [shutil.copyfile(src, dst)] refuses to copy a file onto itself. *)
Definition copyfile (w : World) (src dst : string) : M unit :=
  if samefile w src dst then raise SameFileError else emit (CopyFile src dst).

(** The loop of [extract_rmsd], lines 82-119, up to the accumulated [data]. *)
Definition accumulate (w : World) (conditions : list Manifest.row) (index_file : string)
  : M (Data.t * list cell) :=
  index_samples <- or_raise (read_excel w index_file 0) ReadError ;;
  index_conditions <- or_raise (read_excel w index_file 1) ReadError ;;
  for_each (condition_body w index_samples index_conditions index_file)
           conditions (Data.empty, []).

(** The end of [extract_rmsd], lines 121-127: the table is built and
    written, and the index file is copied next to it.  The file system is
    taken to let the two files be written. *)
Definition finish (w : World) (index_file data_out_path : string) (data : Data.t)
  : M unit :=
  df <- from_dict data ;;
  emit (ToCsv data_out_path (to_csv_text w df)) ;;;
  logging INFO (msg_written data_out_path) ;;;
  let destination_index_file :=
    Path.join (Path.dirname data_out_path) (Path.basename index_file) in
  copyfile w index_file destination_index_file ;;;
  logging INFO (msg_copied destination_index_file).

(** [extract_rmsd(conditions, index_file, data_out_path)], where
    [conditions] is given by the rows [conditions.iterrows()] yields. *)
Definition extract_rmsd (w : World) (conditions : list Manifest.row)
           (index_file data_out_path : string) : M unit :=
  st <- accumulate w conditions index_file ;;
  finish w index_file data_out_path (fst st).

(** The texts written to [file], and the messages logged at level [l], in a
    trace. *)
Definition written (t : list event) (file : string) : list string :=
  flat_map (fun e => match e with
                     | ToCsv f text => if String.eqb f file then [text] else []
                     | _ => []
                     end) t.

Definition logged (l : level) (t : list event) : list string :=
  flat_map (fun e => match e with
                     | Log l' msg => match l, l' with
                                     | INFO, INFO | WARNING, WARNING | ERROR, ERROR => [msg]
                                     | _, _ => []
                                     end
                     | _ => []
                     end) t.

(** The floats of the examples: the whole numbers (none of them is beyond
    2^53), and the decimals that the examples hold. *)
Definition demo_to_double (s : string) : option string :=
  match int_token s with
  | Some n => Some (Str.of_Z n ++ ".0")%string
  | None =>
      if existsb (String.eqb s) ["0.1"; "0.2"; "0.3"; "0.5"; "1.5"; "1.25"; "2.0"]
      then Some s
      else if String.eqb s "1.50" then Some "1.5"
      else if String.eqb s "2.50" then Some "2.5"
      else None
  end.

(** A small world for the examples: three directories, one index file and a
    few manifests. *)
Definition demo_world : World :=
  {| listdir := fun d =>
       if String.eqb d "inputs/WT"
       then Some ["RMSD_histogram_s1.csv"; "RMSD_s1_x.csv"; "notes.txt"]
       else if String.eqb d "inputs/KO" then Some ["readme.md"]
       else if String.eqb d "inputs/ins" then Some ["RMSD_s3_b.csv"; "RMSD_s2_a.csv"]
       else None;
     read_csv := fun f =>
       if String.eqb f "inputs/WT/RMSD_s1_x.csv"
       then Some {| columns := ["frames"; "RMSD"];
                    values := [(Int 1, Float "0.1"); (Int 2, Float "0.2"); (Int 3, Float "0.3")] |}
       else if String.eqb f "inputs/ins/RMSD_s2_a.csv"
       then Some {| columns := ["frames"; "RMSD"];
                    values := [(Int 1, Float "1.5"); (Int 2, Float "1.25")] |}
       else if String.eqb f "inputs/ins/RMSD_s3_b.csv"
       then Some {| columns := ["frames"; "RMSD"]; values := [(Int 1, Float "2.0")] |}
       else None;
     read_excel := fun f n =>
       if String.eqb f "data/index.xlsx"
       then match n with
            | 0 => Some [(Text "s1", Int 0); (Text "s2", Int 1); (Text "s3", Int 2)]
            | 1 => Some [(Text "WT", Int 0); (Text "insertions", Int 1)]
            | _ => None
            end
       else None;
     read_lines := fun f =>
       if String.eqb f "conditions.csv"
       then Some [["insertions"; "inputs/ins"; "#fc030b"]; ["KO"; "inputs/KO"; "#00ff00"];
                  ["WT"; "inputs/WT"; "#0303fc"]]
       else if String.eqb f "na.csv"
       then Some [["NA"; "inputs/NA"; "#000000"]; ["WT"; "inputs/WT"; "#0303fc"]]
       else if String.eqb f "numbers.csv"
       then Some [["007"; "inputs/a"; "#000000"]; ["42"; "inputs/b"; "#ffffff"]]
       else if String.eqb f "flags.csv"
       then Some [["TRUE"; "inputs/a"; "#000000"]; ["false"; "inputs/b"; "#ffffff"]]
       else if String.eqb f "doses.csv"
       then Some [["1.50"; "inputs/a"; "#000000"]; ["2.50"; "inputs/b"; "#ffffff"]]
       else if String.eqb f "empty.csv" then Some []
       else None;
     samefile := String.eqb;
     to_double := demo_to_double;
     float_of_big_int := fun n => (Str.of_Z n ++ ".0")%string |}.

Definition demo_conditions : list Manifest.row :=
  [Manifest.Row (Text "insertions") (Text "inputs/ins") (Text "#fc030b");
   Manifest.Row (Text "KO") (Text "inputs/KO") (Text "#00ff00");
   Manifest.Row (Text "WT") (Text "inputs/WT") (Text "#0303fc")].

(** ** The table a run is expected to write

    The properties on the order and the number of rows are stated against
    these definitions, which follow the nesting of the specification:
    conditions, then the sorted file names of a condition, then the rows of a
    file. *)

Definition of_rows (rows : list out_row) : Data.t :=
  Data.Make (map r_sample rows) (map r_condition rows) (map r_frame rows)
            (map r_RMSD rows).

(** The rows a sample file gives: its pairs of frame and RMSD, in file order. *)
Definition rows_of (sample_index condition_index : value) (df : DataFrame)
  : list out_row :=
  map (fun v => OutRow sample_index condition_index (fst v) (snd v)) (values df).

(** The file names of a condition that are processed, in processing order. *)
Definition condition_files (w : World) (row : Manifest.row) : list string :=
  match Manifest.path row with
  | Text dir =>
      match listdir w dir with
      | Some entries => sorted (filter keep entries)
      | None => []
      end
  | _ => []
  end.

(** A condition is skipped when no entry of its directory is kept. *)
Definition skipped (w : World) (row : Manifest.row) : bool :=
  match condition_files w row with
  | [] => true
  | _ :: _ => false
  end.

Definition sample_rows (w : World) (index_samples index_conditions : sheet)
           (row : Manifest.row) (item : string) : list out_row :=
  match Re.search pattern item,
        read_csv w (Path.join (cell_str (Manifest.path row)) item) with
  | Some sample, Some df =>
      match first_value (index_values index_samples sample),
            first_value (index_values_cell index_conditions (Manifest.condition row)) with
      | Some si, Some ci => rows_of si ci df
      | _, _ => []
      end
  | _, _ => []
  end.

(** The number of entries of the [frames] column of a sample file. *)
Definition frame_count (w : World) (row : Manifest.row) (item : string) : nat :=
  match read_csv w (Path.join (cell_str (Manifest.path row)) item) with
  | Some df => List.length (map fst (values df))
  | None => 0
  end.

(** The number of [frames] entries over the files of a condition. *)
Definition condition_frames (w : World) (row : Manifest.row) : nat :=
  list_sum (map (frame_count w row) (condition_files w row)).

Definition condition_rows (w : World) (index_samples index_conditions : sheet)
           (row : Manifest.row) : list out_row :=
  flat_map (sample_rows w index_samples index_conditions row) (condition_files w row).

Definition expected_table (w : World) (index_samples index_conditions : sheet)
           (conditions : list Manifest.row) : list out_row :=
  flat_map (condition_rows w index_samples index_conditions)
           (filter (fun row => negb (skipped w row)) conditions).

(** ** Reading a CSV text

    The records of a text, as a reader of CSV takes them: a record ends at a
    line break and a field at a comma, unless between quotes; the quotes
    around a field are taken off, and two quotes in a row between quotes
    stand for one. *)

Inductive reading : Type :=
| FieldStart
| Unquoted
| Quoted
| QuoteSeen.

Fixpoint read_records (st : reading) (fld : string) (record : list string) (s : string)
  : list (list string) :=
  match s with
  | EmptyString =>
      match st, record with
      | FieldStart, [] => []
      | _, _ => [record ++ [fld]]
      end
  | String c s' =>
      let plain :=
        if Ascii.eqb c "," then read_records FieldStart "" (record ++ [fld]) s'
        else if Ascii.eqb c Str.newline
             then (record ++ [fld]) :: read_records FieldStart "" [] s'
             else read_records Unquoted (fld ++ Str.chr c) record s' in
      match st with
      | FieldStart =>
          if Ascii.eqb c Str.dquote then read_records Quoted fld record s' else plain
      | Unquoted => plain
      | Quoted =>
          if Ascii.eqb c Str.dquote then read_records QuoteSeen fld record s'
          else read_records Quoted (fld ++ Str.chr c) record s'
      | QuoteSeen =>
          if Ascii.eqb c Str.dquote
          then read_records Quoted (fld ++ Str.chr Str.dquote) record s'
          else plain
      end
  end.

Definition records (text : string) : list (list string) :=
  read_records FieldStart "" [] text.


(** ** Predicates on runs *)

Definition only_logs (t : list event) : Prop :=
  Forall (fun e => match e with Log _ _ => True | _ => False end) t.

(** A computation that exits does so with status 1 and has emitted log
    records only, whatever its outcome. *)
Definition tame {A} (m : M A) : Prop :=
  (forall s, fst m = Exit s -> s = 1%Z) /\ only_logs (snd m).

Definition destination (index_file data_out_path : string) : string :=
  Path.join (Path.dirname data_out_path) (Path.basename index_file).

(** Two computations with the same outcome that wrote the same files. *)
Definition same_output {A} (r1 r2 : M A) : Prop :=
  fst r1 = fst r2 /\ forall file, written (snd r1) file = written (snd r2) file.

(** The two ways a computation stops early. *)
Inductive failure : Type :=
| Exits (status : Z)
| Raises (e : exn).

Definition fail {A} (f : failure) : outcome A :=
  match f with
  | Exits s => Exit s
  | Raises e => Raise e
  end.

(** ** The sample name in the words of the specification *)

Fixpoint strip_prefix (p s : string) : option string :=
  match p, s with
  | EmptyString, _ => Some s
  | String a p', String b s' => if Ascii.eqb a b then strip_prefix p' s' else None
  | String _ _, EmptyString => None
  end.

Fixpoint drop_csv (s : string) : option string :=
  match s with
  | EmptyString => None
  | String c s' =>
      match drop_csv s' with
      | Some r => Some (String c r)
      | None => if String.eqb s ".csv" then Some EmptyString else None
      end
  end.

Fixpoint before_last_underscore (s : string) : option string :=
  match s with
  | EmptyString => None
  | String c s' =>
      match before_last_underscore s' with
      | Some r => Some (String c r)
      | None => if Ascii.eqb c "_" then Some EmptyString else None
      end
  end.

(** The sample name as the specification words it: what stands between the
    leading [RMSD_] and the last underscore before the final [.csv]. *)
Definition spec_sample (fn : string) : option string :=
  match strip_prefix "RMSD_" fn with
  | Some rest =>
      match drop_csv rest with
      | Some body => before_last_underscore body
      | None => None
      end
  | None => None
  end.

(** The pattern from its group on, and what follows the group. *)
Definition tail_pattern : list Re.item := Re.Lit "_" :: Re.DotPlus :: Re.lits ".csv".
Definition group_pattern : list Re.item := Re.GroupDotPlus :: tail_pattern.

(** ** A world with failures *)

(** A directory with a file name that does not
    match the pattern next to one whose sample is not in the index, and a
    directory for a condition the index does not know. *)
Definition stray_world : World :=
  {| listdir := fun d =>
       if String.eqb d "runs/WT" then Some ["RMSDzzz.csv"; "RMSD_a_b.csv"]
       else if String.eqb d "runs/KO" then Some ["RMSD_s9_x.csv"]
       else if String.eqb d "runs/new" then Some ["RMSD_s1_x.csv"]
       else if String.eqb d "runs/odd" then Some ["RMSDzzz.csv"]
       else None;
     read_csv := fun f =>
       if String.eqb f "runs/WT/RMSD_a_b.csv" || String.eqb f "runs/KO/RMSD_s9_x.csv"
          || String.eqb f "runs/new/RMSD_s1_x.csv"
       then Some {| columns := ["frames"; "RMSD"]; values := [(Int 1, Float "0.5")] |}
       else None;
     read_excel := fun f n =>
       if String.eqb f "index.xlsx"
       then match n with
            | 0 => Some [(Text "s1", Int 0)]
            | 1 => Some [(Text "WT", Int 0)]
            | _ => None
            end
       else None;
     read_lines := fun _ => None;
     samefile := String.eqb;
     to_double := demo_to_double;
     float_of_big_int := fun n => (Str.of_Z n ++ ".0")%string |}.

(** ** Further predicates on runs *)

(** The directory of a row holds no kept file name. *)
Definition empty_condition (w : World) (row : Manifest.row) : Prop :=
  exists dir entries,
    Manifest.path row = Text dir
    /\ listdir w dir = Some entries
    /\ forall fn, In fn entries -> keep fn = false.

(** The same world with another listing of the directories. *)
Definition with_listdir (w : World) (ld : string -> option (list string)) : World :=
  {| listdir := ld;
     read_csv := read_csv w;
     read_excel := read_excel w;
     read_lines := read_lines w;
     samefile := samefile w;
     to_double := to_double w;
     float_of_big_int := float_of_big_int w |}.

(** Two results of [os.listdir] with the same entries, in whatever order. *)
Definition same_entries (o1 o2 : option (list string)) : Prop :=
  match o1, o2 with
  | Some l1, Some l2 => Permutation l1 l2
  | None, None => True
  | _, _ => False
  end.

(** ** The script: [create_log] and the main block *)

(** What the script does to the file system and to the logging set-up before
    it runs the two functions. *)
Inductive setup : Type :=
| MakeDirs (dir : string)
| Remove (file : string)
| BasicConfig (file : string) (threshold : Z).

(** [os.path.exists]. *)
Record Host : Type := { path_exists : string -> bool }.

Definition log_level_dict : list (string * Z) :=
  [("DEBUG", 10%Z); ("INFO", 20%Z); ("WARNING", 30%Z); ("ERROR", 40%Z);
   ("CRITICAL", 50%Z)].

(** [d[key]]: the value of the first pair with that key. *)
Definition dict_get (d : list (string * Z)) (key : string) : option Z :=
  match find (fun kv => String.eqb (fst kv) key) d with
  | Some kv => Some (snd kv)
  | None => None
  end.

(** [create_log(path, level)], lines 22-51: the level is looked up, a file
    at [path] is removed, and logging is set up on [path] (the handler is
    taken to open its file).  The result is the level set. *)
Definition create_log (h : Host) (path : string) (level : option string)
  : outcome Z * list setup :=
  let key := match level with
             | None => "INFO"
             | Some l => l
             end in
  match dict_get log_level_dict key with
  | None => (Raise (KeyError key), [])
  | Some log_level =>
      (Ok log_level,
       (if path_exists h path then [Remove path] else []) ++ [BasicConfig path log_level])
  end.

(** The numbers of the levels of [logging]. *)
Definition levelno (l : level) : Z :=
  match l with
  | INFO => 20
  | WARNING => 30
  | ERROR => 40
  end.

(** The events of a trace once logging is set to [threshold]: a record below
    the threshold is dropped. *)
Definition recorded (threshold : Z) (t : list event) : list event :=
  filter (fun e => match e with
                   | Log l _ => (threshold <=? levelno l)%Z
                   | _ => true
                   end) t.

(** [s.rfind(c) + 1] *)
Fixpoint after_last (c : ascii) (s : string) : nat :=
  match s with
  | EmptyString => 0
  | String b s' =>
      match after_last c s' with
      | O => if Ascii.eqb b c then 1 else 0
      | S k => S (S k)
      end
  end.

Fixpoint all_dots (s : string) : bool :=
  match s with
  | EmptyString => true
  | String c s' => Ascii.eqb c "." && all_dots s'
  end.

(** [os.path.splitext(p)]: the split is at the last dot, when it comes after
    the last slash and after a character of the name that is not a dot. *)
Definition splitext (p : string) : string * string :=
  let sep := after_last "/" p in
  let dot := after_last "." p in
  if (sep <? dot)%nat && negb (all_dots (substring sep (dot - 1 - sep) p))
  then (substring 0 (dot - 1) p, substring (dot - 1) (String.length p - (dot - 1)) p)
  else (p, EmptyString).

Module Args.
Record t : Type :=
  Make { out : string; index : string; log : option string; log_level : option string;
         input : string }.
End Args.

Definition version : string := "1.0.0".

(** The log file when [--log] is not given: in the output directory, named
    after the script. *)
Definition default_log (out_dir script : string) : string :=
  Path.join out_dir (fst (splitext (Path.basename script)) ++ ".log").

(** Lines 184-188. *)
Definition pipeline (w : World) (argv : list string) (args : Args.t) : M unit :=
  logging INFO ("version: " ++ version) ;;;
  logging INFO ("CMD: " ++ String.concat " " argv) ;;;
  data_conditions <- get_conditions w (Args.input args) ;;
  extract_rmsd w (iterrows w data_conditions) (Args.index args) (Args.out args).

(** The main block after [parse_args], lines 174-188; [script] is
    [__file__] and [argv] is [sys.argv].  [os.makedirs] raises on the empty
    path, which is what [dirname] gives for an output path without a
    directory.  The events are those that get to the handlers. *)
Definition main (h : Host) (w : World) (script : string) (argv : list string)
           (args : Args.t) : list setup * M unit :=
  let out_dir := Path.dirname (Args.out args) in
  if String.eqb out_dir "" then ([], raise OSError)
  else
    let log_path :=
      match Args.log args with
      | Some l => if String.eqb l "" then default_log out_dir script else l
      | None => default_log out_dir script
      end in
    match create_log h log_path (Args.log_level args) with
    | (Ok threshold, s) =>
        let '(o, t) := pipeline w argv args in
        (MakeDirs out_dir :: s, (o, recorded threshold t))
    | (Exit status, s) => (MakeDirs out_dir :: s, sys_exit status)
    | (Raise e, s) => (MakeDirs out_dir :: s, raise e)
    end.

Definition demo_host : Host := {| path_exists := fun f => String.eqb f "results/run.log" |}.

Definition demo_args : Args.t :=
  Args.Make "results/out.csv" "data/index.xlsx" None None "conditions.csv".

(** The arguments with another [--log-level]. *)
Definition with_level (args : Args.t) (lv : option string) : Args.t :=
  Args.Make (Args.out args) (Args.index args) (Args.log args) lv (Args.input args).



(** The same world with other manifest files. *)
Definition with_lines (w : World) (rl : string -> option (list (list string))) : World :=
  {| listdir := listdir w;
     read_csv := read_csv w;
     read_excel := read_excel w;
     read_lines := rl;
     samefile := samefile w;
     to_double := to_double w;
     float_of_big_int := float_of_big_int w |}.

(** * Properties *)

(** ** Strings *)

Lemma has_char_app c s1 s2 :
  has_char c (s1 ++ s2) = has_char c s1 || has_char c s2.
Proof. induction s1 as [| b s1 IH]; simpl; [reflexivity |]. now rewrite IH, orb_assoc. Qed.

Lemma string_app_assoc (s1 s2 s3 : string) : ((s1 ++ s2) ++ s3 = s1 ++ s2 ++ s3)%string.
Proof. induction s1 as [| c s1 IH]; simpl; [reflexivity | now rewrite IH]. Qed.

Lemma string_app_nil_r (s : string) : (s ++ "")%string = s.
Proof. induction s as [| c s IH]; simpl; [reflexivity | now rewrite IH]. Qed.

Lemma concat_lines_cons x l : String.concat "" (x :: l) = (x ++ String.concat "" l)%string.
Proof. destruct l; [symmetry; apply string_app_nil_r | reflexivity]. Qed.

(** ** The monad *)

Lemma bind_ret_l {A B} (a : A) (k : A -> M B) : bind (ret a) k = k a.
Proof. unfold bind, ret. destruct (k a) as [r t]. reflexivity. Qed.

Lemma bind_assoc {A B C} (m : M A) (k : A -> M B) (h : B -> M C) :
  bind (bind m k) h = bind m (fun a => bind (k a) h).
Proof.
  destruct m as [[a | s | e] t]; simpl; try reflexivity.
  destruct (k a) as [[b | s | e] t1]; simpl; try reflexivity.
  destruct (h b) as [r t2]. now rewrite app_assoc.
Qed.

Lemma bind_Ok_inv {A B} (m : M A) (k : A -> M B) b t :
  bind m k = (Ok b, t) ->
  exists a t1 t2, m = (Ok a, t1) /\ k a = (Ok b, t2) /\ t = t1 ++ t2.
Proof.
  destruct m as [[a | s | e] t1]; simpl; try discriminate.
  destruct (k a) as [r t2] eqn:E. intros [= -> <-]. now exists a, t1, t2.
Qed.

Lemma bind_trace {A B} (m : M A) (k : A -> M B) a t :
  m = (Ok a, t) -> bind m k = (fst (k a), t ++ snd (k a)).
Proof. intros ->. simpl. now destruct (k a). Qed.

Lemma bind_ext {A B} (m : M A) (k k' : A -> M B) :
  (forall a, k a = k' a) -> bind m k = bind m k'.
Proof. intros H. destruct m as [[a | s | e] t]; simpl; try reflexivity. now rewrite H. Qed.

Lemma for_each_nil {X S} (body : X -> S -> M S) s : for_each body [] s = ret s.
Proof. reflexivity. Qed.

Lemma for_each_cons {X S} (body : X -> S -> M S) x l s :
  for_each body (x :: l) s = bind (body x s) (for_each body l).
Proof. reflexivity. Qed.



Lemma for_each_app {X S} (body : X -> S -> M S) l1 l2 s :
  for_each body (l1 ++ l2) s = bind (for_each body l1 s) (for_each body l2).
Proof.
  revert s. induction l1 as [| x l1 IH]; intros s.
  - rewrite for_each_nil, bind_ret_l. reflexivity.
  - rewrite <- app_comm_cons, !for_each_cons, bind_assoc.
    apply bind_ext. intros a. apply IH.
Qed.

(** A loop that ends normally ran its body normally on every element. *)
Lemma for_each_Ok_In {X S} (body : X -> S -> M S) l s s' t x :
  for_each body l s = (Ok s', t) -> In x l ->
  exists s0 s1 t0, body x s0 = (Ok s1, t0).
Proof.
  revert s t. induction l as [| y l IH]; intros s t H Hin; [easy |].
  rewrite for_each_cons in H. apply bind_Ok_inv in H.
  destruct H as (s1 & t1 & t2 & Hb & Hrest & _).
  destruct Hin as [-> | Hin]; eauto.
Qed.

(** ** Exit statuses and events *)

Lemma tame_ret {A} (a : A) : tame (ret a).
Proof. split; [discriminate | constructor]. Qed.

Lemma tame_raise {A} e : tame (@raise A e).
Proof. split; [discriminate | constructor]. Qed.

Lemma tame_exit {A} : tame (@sys_exit A 1).
Proof. split; [now intros s [= <-] | constructor]. Qed.

Lemma tame_logging l msg : tame (logging l msg).
Proof. split; [discriminate | repeat constructor]. Qed.

Lemma tame_or_raise {A} (o : option A) e : tame (or_raise o e).
Proof. destruct o; [apply tame_ret | apply tame_raise]. Qed.

Lemma tame_bind {A B} (m : M A) (k : A -> M B) :
  tame m -> (forall a, tame (k a)) -> tame (bind m k).
Proof.
  intros [Hs Hl] Hk. destruct m as [[a | s | e] t]; simpl in *.
  - destruct (Hk a) as [Hs' Hl']. destruct (k a) as [r t']. simpl in *.
    split; [exact Hs' | now apply Forall_app].
  - split; [| exact Hl]. intros s0 [= <-]. now apply Hs.
  - split; [discriminate | exact Hl].
Qed.

Lemma tame_for_each {X S} (body : X -> S -> M S) l s :
  (forall x s, tame (body x s)) -> tame (for_each body l s).
Proof.
  intros Hb. revert s. induction l as [| x l IH]; intros s.
  - apply tame_ret.
  - rewrite for_each_cons. apply tame_bind; auto.
Qed.

Create HintDb tame.
#[local] Hint Resolve tame_ret tame_raise tame_exit tame_logging tame_or_raise : tame.

Lemma tame_item_body w index_samples index_conditions index_file dir cond item data :
  tame (item_body w index_samples index_conditions index_file dir cond item data).
Proof.
  unfold item_body, column_frames, column_RMSD.
  repeat (apply tame_bind; [| intros ?]);
    repeat match goal with
           | |- tame (match ?x with _ => _ end) => destruct x
           | |- tame (bind _ _) => apply tame_bind; [| intros ?]
           end; auto with tame.
Qed.

Lemma tame_condition_body w index_samples index_conditions index_file row st :
  tame (condition_body w index_samples index_conditions index_file row st).
Proof.
  unfold condition_body, os_listdir. destruct st as [data rm].
  apply tame_bind; [destruct (Manifest.path row); auto with tame |].
  intros entries. destruct (_ =? _)%nat.
  - apply tame_bind; auto with tame.
  - apply tame_bind; [auto with tame | intros _].
    apply tame_bind; [| auto with tame].
    apply tame_for_each. intros. apply tame_item_body.
Qed.

Lemma tame_accumulate w conditions index_file : tame (accumulate w conditions index_file).
Proof.
  unfold accumulate.
  apply tame_bind; [auto with tame | intros ?].
  apply tame_bind; [auto with tame | intros ?].
  apply tame_for_each. intros. apply tame_condition_body.
Qed.

Lemma only_logs_written t file : only_logs t -> written t file = [].
Proof.
  induction 1 as [| e t He _ IH]; [reflexivity |].
  destruct e; simpl in *; auto; contradiction.
Qed.

(** ** One sample file *)

Arguments msg_no_files : simpl never.
Arguments msg_retrieving : simpl never.
Arguments msg_no_match : simpl never.
Arguments msg_frames : simpl never.
Arguments msg_no_condition : simpl never.
Arguments msg_written : simpl never.
Arguments msg_copied : simpl never.
Arguments Re.search : simpl never.
Arguments Path.join : simpl never.
Arguments sorted : simpl never.
Arguments keep : simpl never.
Arguments has_column : simpl never.
Arguments index_values : simpl never.
Arguments index_values_cell : simpl never.
Arguments first_value : simpl never.

Section ItemBody.

Variable w : World.
Variables index_samples index_conditions : sheet.
Variable index_file : string.
Variables (dir : string) (cond : cell) (item : string) (data : Data.t).

Let body := item_body w index_samples index_conditions index_file dir cond item data.

(** Line 102-103: no match, the error is logged and the run exits. *)
Lemma item_body_no_match :
  Re.search pattern item = None ->
  body = (Exit 1, [Log ERROR (msg_no_match item)]).
Proof. unfold body, item_body. intros ->. reflexivity. Qed.

Lemma item_body_no_file sample :
  Re.search pattern item = Some sample ->
  read_csv w (Path.join dir item) = None ->
  body = (Raise ReadError, []).
Proof. unfold body, item_body. intros -> ->. reflexivity. Qed.

Lemma item_body_no_frames sample df :
  Re.search pattern item = Some sample ->
  read_csv w (Path.join dir item) = Some df ->
  has_column df "frames" = false ->
  body = (Raise (KeyError "frames"), []).
Proof.
  unfold body, item_body, column_frames. intros -> H1 H2.
  rewrite H1; simpl. rewrite H2. reflexivity.
Qed.

(** Lines 108-109: the sample has no row in the first sheet. *)
Lemma item_body_no_sample sample df :
  Re.search pattern item = Some sample ->
  read_csv w (Path.join dir item) = Some df ->
  has_column df "frames" = true ->
  first_value (index_values index_samples sample) = None ->
  body = (Raise IndexError, [Log INFO (msg_frames sample (List.length (values df)))]).
Proof.
  unfold body, item_body, column_frames. intros -> H1 H2 H3.
  rewrite H1; simpl. rewrite H2; simpl. rewrite H3; simpl. now rewrite length_map.
Qed.

(** Lines 110-117: the condition has no row in the second sheet. *)
Lemma item_body_no_condition sample df si :
  Re.search pattern item = Some sample ->
  read_csv w (Path.join dir item) = Some df ->
  has_column df "frames" = true ->
  first_value (index_values index_samples sample) = Some si ->
  first_value (index_values_cell index_conditions cond) = None ->
  body = (Exit 1, [Log INFO (msg_frames sample (List.length (values df)));
                   Log ERROR (msg_no_condition cond index_file)]).
Proof.
  unfold body, item_body, column_frames. intros -> H1 H2 H3 H4.
  rewrite H1; simpl. rewrite H2; simpl. rewrite H3; simpl. rewrite H4; simpl.
  now rewrite length_map.
Qed.

Lemma item_body_no_RMSD sample df si ci :
  Re.search pattern item = Some sample ->
  read_csv w (Path.join dir item) = Some df ->
  has_column df "frames" = true ->
  first_value (index_values index_samples sample) = Some si ->
  first_value (index_values_cell index_conditions cond) = Some ci ->
  has_column df "RMSD" = false ->
  body = (Raise (KeyError "RMSD"), [Log INFO (msg_frames sample (List.length (values df)))]).
Proof.
  unfold body, item_body, column_frames, column_RMSD. intros -> H1 H2 H3 H4 H5.
  rewrite H1; simpl. rewrite H2; simpl. rewrite H3; simpl. rewrite H4; simpl.
  rewrite H5; simpl. now rewrite length_map.
Qed.

Lemma columns_of_rows_of si ci df :
  map r_sample (rows_of si ci df) = repeat si (List.length (map fst (values df)))
  /\ map r_condition (rows_of si ci df) = repeat ci (List.length (map fst (values df)))
  /\ map r_frame (rows_of si ci df) = map fst (values df)
  /\ map r_RMSD (rows_of si ci df) = map snd (values df).
Proof.
  unfold rows_of. induction (values df) as [| v l (IH1 & IH2 & IH3 & IH4)]; simpl.
  - now repeat split.
  - repeat split; f_equal; assumption.
Qed.

(** Lines 104-119 when nothing fails: the rows of the file are appended. *)
Lemma item_body_rows sample df si ci rows :
  data = of_rows rows ->
  Re.search pattern item = Some sample ->
  read_csv w (Path.join dir item) = Some df ->
  has_column df "frames" = true ->
  first_value (index_values index_samples sample) = Some si ->
  first_value (index_values_cell index_conditions cond) = Some ci ->
  has_column df "RMSD" = true ->
  body = (Ok (of_rows (rows ++ rows_of si ci df)),
          [Log INFO (msg_frames sample (List.length (values df)))]).
Proof.
  unfold body, item_body, column_frames, column_RMSD. intros -> -> H1 H2 H3 H4 H5.
  rewrite H1; simpl. rewrite H2; simpl. rewrite H3; simpl. rewrite H4; simpl.
  rewrite H5; simpl.
  destruct (columns_of_rows_of si ci df) as (E1 & E2 & E3 & E4).
  unfold of_rows. rewrite !map_app, E1, E2, E3, E4, !length_map. reflexivity.
Qed.

Lemma item_body_Ok_inv d t :
  body = (Ok d, t) ->
  exists sample df si ci,
    Re.search pattern item = Some sample
    /\ read_csv w (Path.join dir item) = Some df
    /\ has_column df "frames" = true
    /\ first_value (index_values index_samples sample) = Some si
    /\ first_value (index_values_cell index_conditions cond) = Some ci
    /\ has_column df "RMSD" = true.
Proof.
  intros H.
  destruct (Re.search pattern item) as [sample |] eqn:E1;
    [| rewrite (item_body_no_match E1) in H; discriminate].
  destruct (read_csv w (Path.join dir item)) as [df |] eqn:E2;
    [| rewrite (item_body_no_file sample E1 E2) in H; discriminate].
  destruct (has_column df "frames") eqn:E3;
    [| rewrite (item_body_no_frames sample df E1 E2 E3) in H; discriminate].
  destruct (first_value (index_values index_samples sample)) as [si |] eqn:E4;
    [| rewrite (item_body_no_sample sample df E1 E2 E3 E4) in H; discriminate].
  destruct (first_value (index_values_cell index_conditions cond)) as [ci |] eqn:E5;
    [| rewrite (item_body_no_condition sample df si E1 E2 E3 E4 E5) in H; discriminate].
  destruct (has_column df "RMSD") eqn:E6;
    [| rewrite (item_body_no_RMSD sample df si ci E1 E2 E3 E4 E5 E6) in H; discriminate].
  exists sample, df, si, ci. now repeat split.
Qed.

End ItemBody.

(** ** The two loops on a run that ends normally *)

Section Loops.

Variable w : World.
Variables index_samples index_conditions : sheet.
Variable index_file : string.

Let items_loop (row : Manifest.row) :=
  for_each (item_body w index_samples index_conditions index_file
                      (cell_str (Manifest.path row)) (Manifest.condition row)).

Let rows_at := sample_rows w index_samples index_conditions.

Lemma item_body_Ok_rows row item rows d t :
  item_body w index_samples index_conditions index_file
            (cell_str (Manifest.path row)) (Manifest.condition row) item (of_rows rows)
  = (Ok d, t) ->
  d = of_rows (rows ++ rows_at row item)
  /\ List.length (rows_at row item) = frame_count w row item.
Proof.
  intros H. pose proof H as H'. apply item_body_Ok_inv in H'.
  destruct H' as (sample & df & si & ci & E1 & E2 & E3 & E4 & E5 & E6).
  rewrite (item_body_rows w index_samples index_conditions index_file _ _ _ _
             sample df si ci rows eq_refl E1 E2 E3 E4 E5 E6) in H.
  injection H as <- _.
  unfold rows_at, sample_rows, frame_count. rewrite E1, E2, E4, E5.
  split; [reflexivity |]. unfold rows_of. now rewrite !length_map.
Qed.

Lemma items_loop_Ok row items rows d t :
  items_loop row items (of_rows rows) = (Ok d, t) ->
  d = of_rows (rows ++ flat_map (rows_at row) items)
  /\ List.length (flat_map (rows_at row) items)
     = list_sum (map (frame_count w row) items).
Proof.
  unfold items_loop. revert rows t.
  induction items as [| item items IH]; intros rows t H.
  - injection H as <- _. now rewrite app_nil_r.
  - rewrite for_each_cons in H. apply bind_Ok_inv in H.
    destruct H as (d1 & t1 & t2 & Hitem & Hrest & _).
    apply item_body_Ok_rows in Hitem. destruct Hitem as [-> Hlen].
    apply IH in Hrest. destruct Hrest as [-> Hlen'].
    simpl. rewrite <- app_assoc, length_app, Hlen, Hlen'. now split.
Qed.

Let conditions_loop :=
  for_each (condition_body w index_samples index_conditions index_file).

Lemma condition_body_Ok row rows rm d rm' t :
  condition_body w index_samples index_conditions index_file row (of_rows rows, rm)
  = (Ok (d, rm'), t) ->
  d = of_rows (rows ++ condition_rows w index_samples index_conditions row)
  /\ List.length (condition_rows w index_samples index_conditions row)
     = condition_frames w row.
Proof.
  unfold condition_body, os_listdir, condition_rows, condition_frames, condition_files.
  destruct (Manifest.path row) as [dir | | | |] eqn:Hp; try (simpl; discriminate).
  destruct (listdir w dir) as [entries |]; [| simpl; discriminate].
  cbn [or_raise]. rewrite bind_ret_l.
  destruct (filter keep entries) as [| fn kept] eqn:Hk.
  - cbn [List.length Nat.eqb]. intros H.
    apply bind_Ok_inv in H. destruct H as ([] & t1 & t2 & _ & H & _).
    injection H as <- _ _. change (sorted []) with (@nil string).
    simpl. now rewrite app_nil_r.
  - cbn [List.length Nat.eqb]. intros H.
    apply bind_Ok_inv in H. destruct H as ([] & t1 & t2 & _ & H & _).
    apply bind_Ok_inv in H. destruct H as (d1 & t3 & t4 & H & Hret & _).
    injection Hret as <- _ _.
    pose proof (items_loop_Ok row (sorted (fn :: kept)) rows) as L.
    unfold items_loop in L. rewrite Hp in L. now apply L in H.
Qed.

Lemma conditions_loop_Ok conditions rows rm d rm' t :
  conditions_loop conditions (of_rows rows, rm) = (Ok (d, rm'), t) ->
  d = of_rows (rows ++ flat_map (condition_rows w index_samples index_conditions)
                                conditions)
  /\ List.length (flat_map (condition_rows w index_samples index_conditions) conditions)
     = list_sum (map (condition_frames w) conditions).
Proof.
  unfold conditions_loop. revert rows rm t.
  induction conditions as [| row conditions IH]; intros rows rm t H.
  - injection H as <- _. now rewrite app_nil_r.
  - rewrite for_each_cons in H. apply bind_Ok_inv in H.
    destruct H as ([d1 rm1] & t1 & t2 & Hrow & Hrest & _).
    apply condition_body_Ok in Hrow. destruct Hrow as [-> Hlen].
    apply IH in Hrest. destruct Hrest as [-> Hlen'].
    simpl. rewrite <- app_assoc, length_app, Hlen, Hlen'. now split.
Qed.

(** Skipped conditions stand for nothing in the sums over conditions. *)
Lemma skipped_no_rows row :
  skipped w row = true ->
  condition_rows w index_samples index_conditions row = [].
Proof.
  unfold skipped, condition_rows.
  destruct (condition_files w row); [reflexivity | discriminate].
Qed.

Lemma flat_map_not_skipped conditions :
  flat_map (condition_rows w index_samples index_conditions)
           (filter (fun row => negb (skipped w row)) conditions)
  = flat_map (condition_rows w index_samples index_conditions) conditions.
Proof.
  induction conditions as [| row conditions IH]; [reflexivity |].
  simpl. destruct (skipped w row) eqn:E; simpl; rewrite IH; [| reflexivity].
  now rewrite (skipped_no_rows row E).
Qed.

End Loops.

Lemma skipped_no_frames w row : skipped w row = true -> condition_frames w row = 0.
Proof.
  unfold skipped, condition_frames.
  destruct (condition_files w row); [reflexivity | discriminate].
Qed.

Lemma sum_not_skipped w conditions :
  list_sum (map (condition_frames w) (filter (fun row => negb (skipped w row)) conditions))
  = list_sum (map (condition_frames w) conditions).
Proof.
  induction conditions as [| row conditions IH]; [reflexivity |].
  simpl. destruct (skipped w row) eqn:E; simpl; rewrite IH; [| reflexivity].
  now rewrite (skipped_no_frames w row E).
Qed.

Lemma from_dict_of_rows rows : from_dict (of_rows rows) = ret rows.
Proof.
  unfold from_dict, of_rows. cbn [Data.sample Data.condition Data.frame Data.RMSD].
  rewrite !length_map, !Nat.eqb_refl. cbn [andb]. f_equal. unfold ret. f_equal.
  induction rows as [| [s c f r] rows IH]; [reflexivity |].
  simpl. now rewrite IH.
Qed.

(** ** Runs of [extract_rmsd] that end normally *)

Lemma accumulate_Ok_inv w conditions index_file st t :
  accumulate w conditions index_file = (Ok st, t) ->
  exists index_samples index_conditions,
    read_excel w index_file 0 = Some index_samples
    /\ read_excel w index_file 1 = Some index_conditions
    /\ for_each (condition_body w index_samples index_conditions index_file)
                conditions (Data.empty, []) = (Ok st, t).
Proof.
  unfold accumulate.
  destruct (read_excel w index_file 0) as [ss |]; [| simpl; discriminate].
  destruct (read_excel w index_file 1) as [cs |]; [| simpl; discriminate].
  cbn [or_raise]. rewrite !bind_ret_l. intros H. now exists ss, cs.
Qed.

Lemma extract_rmsd_Ok_inv w conditions index_file data_out_path t :
  extract_rmsd w conditions index_file data_out_path = (Ok tt, t) ->
  exists index_samples index_conditions st t1,
    read_excel w index_file 0 = Some index_samples
    /\ read_excel w index_file 1 = Some index_conditions
    /\ for_each (condition_body w index_samples index_conditions index_file)
                conditions (Data.empty, []) = (Ok st, t1)
    /\ samefile w index_file (destination index_file data_out_path) = false
    /\ t = t1 ++ [ToCsv data_out_path
                        (to_csv_text w (flat_map (condition_rows w index_samples index_conditions)
                                               conditions));
                  Log INFO (msg_written data_out_path);
                  CopyFile index_file (destination index_file data_out_path);
                  Log INFO (msg_copied (destination index_file data_out_path))].
Proof.
  unfold extract_rmsd, finish. fold (destination index_file data_out_path). intros H.
  apply bind_Ok_inv in H. destruct H as ([d rm] & t1 & t2 & Hacc & H & ->).
  apply accumulate_Ok_inv in Hacc. destruct Hacc as (ss & cs & E0 & E1 & Hloop).
  exists ss, cs, (d, rm), t1. repeat split; try assumption.
  - unfold copyfile in H.
    destruct (samefile w index_file (destination index_file data_out_path));
      [| reflexivity].
    exfalso. change Data.empty with (of_rows []) in Hloop.
    apply conditions_loop_Ok in Hloop. destruct Hloop as [-> _].
    cbn [fst] in H. rewrite from_dict_of_rows in H. simpl in H. discriminate.
  - f_equal. change Data.empty with (of_rows []) in Hloop.
    apply conditions_loop_Ok in Hloop. destruct Hloop as [-> _].
    cbn [fst app] in H. rewrite from_dict_of_rows, bind_ret_l in H.
    unfold copyfile in H.
    destruct (samefile w index_file (destination index_file data_out_path));
      simpl in H; [discriminate |].
    now injection H as <-.
Qed.

Lemma written_app t1 t2 file : written (t1 ++ t2) file = written t1 file ++ written t2 file.
Proof. unfold written. apply flat_map_app. Qed.

Lemma extract_rmsd_Ok_written w conditions index_file data_out_path t :
  extract_rmsd w conditions index_file data_out_path = (Ok tt, t) ->
  exists index_samples index_conditions,
    read_excel w index_file 0 = Some index_samples
    /\ read_excel w index_file 1 = Some index_conditions
    /\ written t data_out_path
       = [to_csv_text w (expected_table w index_samples index_conditions conditions)].
Proof.
  intros H. apply extract_rmsd_Ok_inv in H.
  destruct H as (ss & cs & st & t1 & E0 & E1 & Hloop & _ & ->).
  exists ss, cs. repeat split; try assumption.
  rewrite written_app, only_logs_written.
  - unfold expected_table. rewrite flat_map_not_skipped.
    simpl. now rewrite String.eqb_refl.
  - pose proof (tame_for_each (condition_body w ss cs index_file) conditions
                  (Data.empty, []) (tame_condition_body w ss cs index_file)) as [_ L].
    now rewrite Hloop in L.
Qed.

(** On a run that ends normally every directory was listed and every kept
    file was loaded and resolved. *)
Lemma condition_body_Ok_items w index_samples index_conditions index_file row st st' t :
  condition_body w index_samples index_conditions index_file row st = (Ok st', t) ->
  exists dir entries,
    Manifest.path row = Text dir
    /\ listdir w dir = Some entries
    /\ forall item, In item (sorted (filter keep entries)) ->
       exists sample df si ci,
         Re.search pattern item = Some sample
         /\ read_csv w (Path.join dir item) = Some df
         /\ has_column df "frames" = true
         /\ first_value (index_values index_samples sample) = Some si
         /\ first_value (index_values_cell index_conditions (Manifest.condition row)) = Some ci
         /\ has_column df "RMSD" = true.
Proof.
  unfold condition_body, os_listdir. destruct st as [data rm].
  destruct (Manifest.path row) as [dir | | | |] eqn:Hp; try (simpl; discriminate).
  destruct (listdir w dir) as [entries |] eqn:Hl; [| simpl; discriminate].
  cbn [or_raise]. rewrite bind_ret_l. intros H.
  exists dir, entries. split; [reflexivity | split; [exact Hl |]].
  intros item Hin.
  destruct (filter keep entries) as [| fn kept] eqn:Hk; [now destruct Hin |].
  cbn [List.length Nat.eqb] in H.
  apply bind_Ok_inv in H. destruct H as ([] & t1 & t2 & _ & H & _).
  apply bind_Ok_inv in H. destruct H as (d1 & t3 & t4 & H & _ & _).
  destruct (for_each_Ok_In _ _ _ _ _ item H Hin) as (s0 & s1 & t0 & Hitem).
  apply item_body_Ok_inv in Hitem. exact Hitem.
Qed.

Lemma StringSort_sorted l : Sorted (fun a b => String.leb a b = true) (sorted l).
Proof.
  exact (StringSort.Sorted_sort l).
Qed.

Lemma StringSort_perm l : Permutation l (sorted l).
Proof. apply StringSort.Permuted_sort. Qed.

(** ** The text of a table, read back *)

Lemma needs_quotes_cons c s :
  needs_quotes (String c s) = false ->
  Ascii.eqb c "," = false /\ Ascii.eqb c Str.dquote = false
  /\ Ascii.eqb c Str.newline = false /\ needs_quotes s = false.
Proof.
  unfold needs_quotes. cbn [has_char]. intros H.
  apply orb_false_iff in H. destruct H as [H H3].
  apply orb_false_iff in H. destruct H as [H1 H2].
  apply orb_false_iff in H1. destruct H1 as [C1 H1].
  apply orb_false_iff in H2. destruct H2 as [C2 H2].
  apply orb_false_iff in H3. destruct H3 as [C3 H3].
  now rewrite C1, C2, C3, H1, H2, H3.
Qed.

(** A field written without quotes is read as it is. *)
Lemma read_unquoted s st fld record rest :
  needs_quotes s = false ->
  st = FieldStart \/ st = Unquoted ->
  read_records st fld record (s ++ rest)
  = read_records (match s with
                  | EmptyString => st
                  | String _ _ => Unquoted
                  end) (fld ++ s) record rest.
Proof.
  revert st fld. induction s as [| c s IH]; intros st fld Hq Hst.
  - now rewrite string_app_nil_r.
  - apply needs_quotes_cons in Hq. destruct Hq as (C1 & C2 & C3 & Hq).
    assert (E : read_records st fld record (String c s ++ rest)
                = read_records Unquoted (fld ++ Str.chr c) record (s ++ rest))
      by (destruct Hst as [-> | ->]; cbn [read_records String.append];
          now rewrite ?C2, C1, C3).
    rewrite E, (IH Unquoted (fld ++ Str.chr c)%string Hq (or_intror eq_refl)).
    rewrite string_app_assoc. cbn [Str.chr String.append].
    now destruct s.
Qed.

(** Between quotes, the doubled quotes of a field are read as its quotes, up
    to the quote that closes it. *)
Lemma read_quoted s fld record rest :
  read_records Quoted fld record (double_quotes s ++ String Str.dquote rest)
  = read_records QuoteSeen (fld ++ s) record rest.
Proof.
  revert fld. induction s as [| c s IH]; intros fld.
  - now rewrite string_app_nil_r.
  - cbn [double_quotes]. destruct (Ascii.eqb_spec c Str.dquote) as [-> | Hc].
    + cbn [read_records String.append]. rewrite IH, string_app_assoc. reflexivity.
    + apply Ascii.eqb_neq in Hc. cbn [read_records String.append]. rewrite Hc.
      rewrite IH, string_app_assoc. reflexivity.
Qed.

Lemma read_field s record rest :
  exists st,
    st <> Quoted
    /\ read_records FieldStart "" record (csv_field s ++ rest)
       = read_records st s record rest.
Proof.
  unfold csv_field. destruct (needs_quotes s) eqn:Hq.
  - exists QuoteSeen. split; [discriminate |].
    rewrite !string_app_assoc. cbn [Str.chr String.append read_records].
    now rewrite read_quoted.
  - eexists. split; [| now apply read_unquoted; [| left]].
    destruct s; discriminate.
Qed.

Lemma read_comma st fld record rest :
  st <> Quoted ->
  read_records st fld record (String "," rest)
  = read_records FieldStart "" (record ++ [fld]) rest.
Proof. destruct st; intros H; [reflexivity | reflexivity | now destruct H | reflexivity]. Qed.

Lemma read_newline st fld record rest :
  st <> Quoted ->
  read_records st fld record (String Str.newline rest)
  = (record ++ [fld]) :: read_records FieldStart "" [] rest.
Proof. destruct st; intros H; [reflexivity | reflexivity | now destruct H | reflexivity]. Qed.

(** A record that is written is read as its fields. *)
Lemma read_record f fs record rest :
  read_records FieldStart "" record (csv_record (f :: fs) ++ rest)
  = (record ++ f :: fs) :: read_records FieldStart "" [] rest.
Proof.
  unfold csv_record. revert f record. induction fs as [| g fs IH]; intros f record.
  - cbn [map String.concat]. rewrite string_app_assoc. cbn [Str.chr String.append].
    destruct (read_field f record (String Str.newline rest)) as (st & Hst & ->).
    now apply read_newline.
  - change (String.concat "," (map csv_field (f :: g :: fs)))
      with (csv_field f ++ "," ++ String.concat "," (map csv_field (g :: fs)))%string.
    rewrite !string_app_assoc. cbn [String.append].
    destruct (read_field f record
                (String "," (String.concat "," (map csv_field (g :: fs))
                             ++ Str.chr Str.newline ++ rest))) as (st & Hst & ->).
    rewrite (read_comma st f record _ Hst).
    specialize (IH g (record ++ [f])). rewrite string_app_assoc in IH.
    rewrite IH, <- app_assoc. reflexivity.
Qed.

Lemma read_all (rs : list (list string)) :
  Forall (fun r => r <> []) rs ->
  read_records FieldStart "" [] (String.concat "" (map csv_record rs)) = rs.
Proof.
  induction 1 as [| r rs Hr _ IH]; [reflexivity |].
  cbn [map]. rewrite concat_lines_cons.
  destruct r as [| f fs]; [now destruct Hr |].
  now rewrite read_record, IH.
Qed.

(** The text [to_csv] writes for a table reads as the labels and then, row by
    row, the texts of the cells. *)
Lemma records_to_csv_text w df :
  records (to_csv_text w df) = labels :: map (row_text w df) df.
Proof.
  unfold records, to_csv_text, labels. rewrite read_record. cbn [app]. f_equal.
  rewrite <- (map_map (row_text w df) csv_record). apply read_all.
  apply Forall_forall. intros r Hr. apply in_map_iff in Hr.
  destruct Hr as (x & <- & _). discriminate.
Qed.

(** C2: on a run that ends normally one text is written to the output
    path; read as CSV it is the record of the labels followed by the data
    rows, and these are as many as the [frames] columns of the sample files
    of the conditions that were not skipped have entries, all together. *)
Theorem row_count_invariant w conditions index_file data_out_path t :
  extract_rmsd w conditions index_file data_out_path = (Ok tt, t) ->
  exists text rows,
    written t data_out_path = [text]
    /\ records text = ["sample"; "condition"; "frame"; "RMSD"] :: rows
    /\ List.length rows
       = list_sum (map (fun row => list_sum (map (frame_count w row) (condition_files w row)))
                       (filter (fun row => negb (skipped w row)) conditions)).
Proof.
  fold (condition_frames w).
  intros H. destruct (extract_rmsd_Ok_written _ _ _ _ _ H) as (ss & cs & E0 & E1 & Hw).
  exists (to_csv_text w (expected_table w ss cs conditions)),
         (map (row_text w (expected_table w ss cs conditions))
              (expected_table w ss cs conditions)).
  split; [exact Hw | split; [apply records_to_csv_text |]].
  apply extract_rmsd_Ok_inv in H.
  destruct H as (ss' & cs' & [d rm] & t1 & E0' & E1' & Hloop & _).
  rewrite E0 in E0'. rewrite E1 in E1'. injection E0' as <-. injection E1' as <-.
  change Data.empty with (of_rows []) in Hloop.
  apply conditions_loop_Ok in Hloop. destruct Hloop as [_ Hlen].
  rewrite length_map. unfold expected_table. rewrite flat_map_not_skipped, Hlen.
  symmetry. apply sum_not_skipped.
Qed.

Lemma row_count_invariant_witness :
  exists t text rows,
    extract_rmsd demo_world demo_conditions "data/index.xlsx" "results/out.csv" = (Ok tt, t)
    /\ written t "results/out.csv" = [text]
    /\ records text = ["sample"; "condition"; "frame"; "RMSD"] :: rows
    /\ List.length rows = 6.
Proof.
  exists (snd (extract_rmsd demo_world demo_conditions "data/index.xlsx" "results/out.csv")).
  assert (E : extract_rmsd demo_world demo_conditions "data/index.xlsx" "results/out.csv"
              = (Ok tt, snd (extract_rmsd demo_world demo_conditions "data/index.xlsx"
                                          "results/out.csv")))
    by (vm_compute; reflexivity).
  destruct (row_count_invariant demo_world demo_conditions
              "data/index.xlsx" "results/out.csv" _ E)
    as (text & rows & Hw & Hr & Hlen).
  exists text, rows. split; [exact E | split; [exact Hw | split; [exact Hr |]]].
  rewrite Hlen. vm_compute. reflexivity.
Defined.

(** Whatever ends the run, a table is written only after the loop went
    through, and it is the table of the loop. *)
Lemma written_table w conditions index_file data_out_path text :
  In text (written (snd (extract_rmsd w conditions index_file data_out_path)) data_out_path) ->
  exists index_samples index_conditions st t1,
    read_excel w index_file 0 = Some index_samples
    /\ read_excel w index_file 1 = Some index_conditions
    /\ for_each (condition_body w index_samples index_conditions index_file)
                conditions (Data.empty, []) = (Ok st, t1)
    /\ text = to_csv_text w (expected_table w index_samples index_conditions conditions).
Proof.
  unfold extract_rmsd.
  destruct (tame_accumulate w conditions index_file) as [_ L].
  destruct (accumulate w conditions index_file) as [[[d rm] | s | e] t1] eqn:E;
    cbn [snd] in L.
  - destruct (accumulate_Ok_inv _ _ _ _ _ E) as (ss & cs & E0 & E1 & Hloop).
    intros H. exists ss, cs, (d, rm), t1. repeat split; try assumption.
    rewrite (bind_trace _ _ _ _ eq_refl) in H. cbn [snd fst] in H.
    rewrite written_app, (only_logs_written _ _ L) in H. cbn [app] in H.
    pose proof Hloop as Hd. change Data.empty with (of_rows []) in Hd.
    apply conditions_loop_Ok in Hd. destruct Hd as [-> _]. cbn [app] in H.
    unfold finish, copyfile in H. rewrite from_dict_of_rows, bind_ret_l in H.
    unfold expected_table. rewrite flat_map_not_skipped.
    destruct (samefile w index_file _); simpl in H; rewrite String.eqb_refl in H;
      destruct H as [<- | []]; reflexivity.
  - simpl. now rewrite (only_logs_written _ _ L).
  - simpl. now rewrite (only_logs_written _ _ L).
Qed.

(** C3: a text that is written to the output path reads, as CSV, as the
    record of the labels followed by the records of the rows of the
    conditions in manifest order, the skipped ones left out; within a
    condition those of its kept file names in lexicographic order; within a
    file its rows in file order. *)
Theorem rows_in_nesting_order w conditions index_file data_out_path text :
  In text (written (snd (extract_rmsd w conditions index_file data_out_path)) data_out_path) ->
  exists index_samples index_conditions table,
    read_excel w index_file 0 = Some index_samples
    /\ read_excel w index_file 1 = Some index_conditions
    /\ table
       = flat_map (fun row => flat_map (sample_rows w index_samples index_conditions row)
                                       (condition_files w row))
                  (filter (fun row => negb (skipped w row)) conditions)
    /\ records text
       = ["sample"; "condition"; "frame"; "RMSD"] :: map (row_text w table) table
    /\ forall row, In row conditions ->
       exists dir entries,
         Manifest.path row = Text dir
         /\ listdir w dir = Some entries
         /\ Sorted (fun a b => String.leb a b = true) (condition_files w row)
         /\ Permutation (filter keep entries) (condition_files w row)
         /\ forall item, In item (condition_files w row) ->
            exists df si ci,
              read_csv w (Path.join dir item) = Some df
              /\ sample_rows w index_samples index_conditions row item
                 = map (fun v => OutRow si ci (fst v) (snd v)) (values df).
Proof.
  intros H. apply written_table in H.
  destruct H as (ss & cs & st & t1 & E0 & E1 & Hloop & ->).
  exists ss, cs, (expected_table w ss cs conditions).
  split; [exact E0 | split; [exact E1 | split; [reflexivity |]]].
  split; [apply records_to_csv_text |].
  intros row Hin.
  destruct (for_each_Ok_In _ _ _ _ _ row Hloop Hin) as (s0 & s1 & t0 & Hrow).
  apply condition_body_Ok_items in Hrow.
  destruct Hrow as (dir & entries & Hp & Hl & Hitems).
  exists dir, entries. unfold condition_files. rewrite Hp, Hl.
  split; [reflexivity | split; [reflexivity |]].
  split; [apply StringSort_sorted | split; [apply StringSort_perm |]].
  intros item Hitem. destruct (Hitems item Hitem) as (s & df & si & ci & F1 & F2 & _ & F4 & F5 & _).
  exists df, si, ci. split; [exact F2 |].
  unfold sample_rows. rewrite Hp. cbn [cell_str]. now rewrite F1, F2, F4, F5.
Qed.

Lemma rows_in_nesting_order_witness :
  exists text,
    In text (written (snd (extract_rmsd demo_world demo_conditions "data/index.xlsx"
                                        "results/out.csv")) "results/out.csv")
    /\ records text
       = [["sample"; "condition"; "frame"; "RMSD"];
          ["1"; "1"; "1"; "1.5"]; ["1"; "1"; "2"; "1.25"]; ["2"; "1"; "1"; "2.0"];
          ["0"; "0"; "1"; "0.1"]; ["0"; "0"; "2"; "0.2"]; ["0"; "0"; "3"; "0.3"]]
    /\ Sorted (fun a b => String.leb a b = true)
              (condition_files demo_world
                 (Manifest.Row (Text "insertions") (Text "inputs/ins") (Text "#fc030b"))).
Proof.
  pose (text := to_csv_text demo_world
                  [OutRow (Int 1) (Int 1) (Int 1) (Float "1.5");
                   OutRow (Int 1) (Int 1) (Int 2) (Float "1.25");
                   OutRow (Int 2) (Int 1) (Int 1) (Float "2.0");
                   OutRow (Int 0) (Int 0) (Int 1) (Float "0.1");
                   OutRow (Int 0) (Int 0) (Int 2) (Float "0.2");
                   OutRow (Int 0) (Int 0) (Int 3) (Float "0.3")]).
  assert (H : In text (written (snd (extract_rmsd demo_world demo_conditions
                                                  "data/index.xlsx" "results/out.csv"))
                               "results/out.csv"))
    by (vm_compute; left; reflexivity).
  exists text. split; [exact H |].
  destruct (rows_in_nesting_order demo_world demo_conditions
              "data/index.xlsx" "results/out.csv" _ H)
    as (ss & cs & table & E0 & E1 & -> & Hrec & Hrows).
  split.
  - rewrite Hrec. vm_compute in E0, E1. injection E0 as <-. injection E1 as <-.
    vm_compute. reflexivity.
  - destruct (Hrows (Manifest.Row (Text "insertions") (Text "inputs/ins") (Text "#fc030b"))
                    (or_introl eq_refl))
      as (dir & entries & _ & _ & Hs & _).
    exact Hs.
Defined.

(** ** Skipped conditions *)

Lemma same_output_refl {A} (r : M A) : same_output r r.
Proof. now split. Qed.

Lemma same_output_bind {A B} (m : M A) (k1 k2 : A -> M B) :
  (forall a, same_output (k1 a) (k2 a)) -> same_output (bind m k1) (bind m k2).
Proof.
  intros H. destruct m as [[a | s | e] t]; try apply same_output_refl.
  unfold bind. destruct (H a) as [Ho Hw]. destruct (k1 a) as [o1 t1], (k2 a) as [o2 t2].
  cbn [fst snd] in *. split; cbn [fst snd]; [exact Ho |].
  intros file. now rewrite !written_app, Hw.
Qed.

Section Skip.

Variable w : World.
Variables index_samples index_conditions : sheet.
Variable index_file : string.

(** The list [conditions_to_remove] is only ever extended: the body does not
  read it. *)
Lemma condition_body_remove row data rm :
condition_body w index_samples index_conditions index_file row (data, rm)
= bind (condition_body w index_samples index_conditions index_file row (data, []))
       (fun st => ret (fst st, rm ++ snd st)).
Proof.
unfold condition_body. rewrite bind_assoc. apply bind_ext. intros entries.
destruct (_ =? _)%nat.
- rewrite bind_assoc. apply bind_ext. intros _. now rewrite bind_ret_l.
- rewrite bind_assoc. apply bind_ext. intros _.
  rewrite bind_assoc. apply bind_ext. intros d.
  rewrite bind_ret_l. cbn [fst snd]. now rewrite app_nil_r.
Qed.

Lemma conditions_loop_remove conditions data rm :
for_each (condition_body w index_samples index_conditions index_file) conditions (data, rm)
= bind (for_each (condition_body w index_samples index_conditions index_file)
                 conditions (data, []))
       (fun st => ret (fst st, rm ++ snd st)).
Proof.
revert data rm. induction conditions as [| row conditions IH]; intros data rm.
- rewrite !for_each_nil, bind_ret_l. cbn [fst snd]. now rewrite app_nil_r.
- rewrite !for_each_cons, condition_body_remove, !bind_assoc.
  apply bind_ext. intros [d1 rm1]. rewrite bind_ret_l. cbn [fst snd].
  rewrite (IH d1 (rm ++ rm1)), (IH d1 rm1), bind_assoc.
  apply bind_ext. intros [d2 rm2]. rewrite bind_ret_l. cbn [fst snd].
  now rewrite app_assoc.
Qed.

(** Lines 91-94 on a directory without a kept file. *)
Lemma condition_body_skip row dir entries data rm :
Manifest.path row = Text dir ->
listdir w dir = Some entries ->
(forall fn, In fn entries -> keep fn = false) ->
condition_body w index_samples index_conditions index_file row (data, rm)
= (Ok (data, rm ++ [Manifest.condition row]),
   [Log WARNING (msg_no_files (Manifest.condition row))]).
Proof.
intros Hp Hl Hk. unfold condition_body, os_listdir. rewrite Hp, Hl.
cbn [or_raise]. rewrite bind_ret_l.
replace (filter keep entries) with (@nil string); [reflexivity |].
symmetry. clear Hl. induction entries as [| fn entries IH]; [reflexivity |].
simpl. rewrite (Hk fn (or_introl eq_refl)). apply IH. intros; apply Hk. now right.
Qed.

End Skip.

Lemma same_output_emitted {A B} (a : A) l msg (k : A -> M B) :
  same_output (bind (Ok a, [Log l msg]) k) (k a).
Proof. unfold bind. destruct (k a) as [o t]. now split. Qed.

Lemma same_output_trans {A} (r1 r2 r3 : M A) :
  same_output r1 r2 -> same_output r2 r3 -> same_output r1 r3.
Proof.
  intros [H1 H2] [H3 H4]. split; [congruence |]. intros file. now rewrite H2, H4.
Qed.

(** C4: a condition whose directory holds no kept file name does not stop
    the run: the body of the loop logs the warning and leaves the accumulated
    rows as they are; the run ends as it does without that condition, with
    the same files written; and the warning is in the log of every run that
    gets to the condition. *)
Theorem skip_on_empty w index_file data_out_path row dir entries before after :
  Manifest.path row = Text dir ->
  listdir w dir = Some entries ->
  (forall fn, In fn entries -> keep fn = false) ->
  (forall index_samples index_conditions data rm,
      condition_body w index_samples index_conditions index_file row (data, rm)
      = (Ok (data, rm ++ [Manifest.condition row]),
         [Log WARNING (msg_no_files (Manifest.condition row))]))
  /\ fst (extract_rmsd w (before ++ row :: after) index_file data_out_path)
     = fst (extract_rmsd w (before ++ after) index_file data_out_path)
  /\ (forall file,
         written (snd (extract_rmsd w (before ++ row :: after) index_file data_out_path)) file
         = written (snd (extract_rmsd w (before ++ after) index_file data_out_path)) file)
  /\ (forall index_samples index_conditions st t0,
         read_excel w index_file 0 = Some index_samples ->
         read_excel w index_file 1 = Some index_conditions ->
         for_each (condition_body w index_samples index_conditions index_file) before
                  (Data.empty, []) = (Ok st, t0) ->
         exists t',
           snd (extract_rmsd w (before ++ row :: after) index_file data_out_path)
           = t0 ++ Log WARNING (msg_no_files (Manifest.condition row)) :: t').
Proof.
  intros Hp Hl Hk.
  assert (Hskip := fun ss cs data rm =>
                     condition_body_skip w ss cs index_file row dir entries data rm Hp Hl Hk).
  split; [exact Hskip |].
  apply and_assoc. split.
  - change (same_output (extract_rmsd w (before ++ row :: after) index_file data_out_path)
                        (extract_rmsd w (before ++ after) index_file data_out_path)).
    unfold extract_rmsd, accumulate. rewrite !bind_assoc.
    apply same_output_bind. intros ss. rewrite !bind_assoc.
    apply same_output_bind. intros cs.
    rewrite !for_each_app, !bind_assoc.
    apply same_output_bind. intros [d1 rm1].
    rewrite for_each_cons, Hskip, bind_assoc.
    eapply same_output_trans; [apply same_output_emitted |].
    rewrite (conditions_loop_remove w ss cs index_file after d1 (rm1 ++ _)).
    rewrite (conditions_loop_remove w ss cs index_file after d1 rm1).
    rewrite !bind_assoc. apply same_output_bind. intros st.
    rewrite !bind_ret_l. apply same_output_refl.
  - intros ss cs [d1 rm1] t0 E0 E1 Hb.
    unfold extract_rmsd, accumulate. rewrite E0, E1. cbn [or_raise].
    rewrite !bind_ret_l, for_each_app, !bind_assoc.
    rewrite (bind_trace _ _ _ _ Hb), for_each_cons, Hskip, bind_assoc.
    match goal with
    | |- context [bind (Ok ?a, [?e]) ?k] =>
        rewrite (bind_trace (Ok a, [e]) k a [e] eq_refl)
    end.
    cbn [snd app]. eexists. reflexivity.
Qed.

Lemma skip_on_empty_witness :
  keep "readme.md" = false
  /\ fst (extract_rmsd demo_world demo_conditions "data/index.xlsx" "results/out.csv")
     = fst (extract_rmsd demo_world
              [Manifest.Row (Text "insertions") (Text "inputs/ins") (Text "#fc030b");
               Manifest.Row (Text "WT") (Text "inputs/WT") (Text "#0303fc")]
              "data/index.xlsx" "results/out.csv").
Proof.
  split; [reflexivity |].
  refine (proj1 (proj2
    (skip_on_empty demo_world "data/index.xlsx" "results/out.csv"
       (Manifest.Row (Text "KO") (Text "inputs/KO") (Text "#00ff00"))
       "inputs/KO" ["readme.md"]
       [Manifest.Row (Text "insertions") (Text "inputs/ins") (Text "#fc030b")]
       [Manifest.Row (Text "WT") (Text "inputs/WT") (Text "#0303fc")]
       eq_refl eq_refl _))).
  intros fn [<- | []]. reflexivity.
Defined.

(** ** The end-to-end scenario and the file name filter *)




(** C5: [RMSD_sampleA_traj.csv] passes the filter and gives the sample name
    [sampleA]; [RMSD_histogram_sampleA.csv] starts with [RMSD] and ends with
    [.csv] and is still left out, for it contains [histogram]. *)
Theorem filename_parsing :
  keep "RMSD_sampleA_traj.csv" = true
  /\ Re.search pattern "RMSD_sampleA_traj.csv" = Some "sampleA"
  /\ Str.startswith "RMSD_histogram_sampleA.csv" "RMSD" = true
  /\ Str.endswith "RMSD_histogram_sampleA.csv" ".csv" = true
  /\ Str.contains "RMSD_histogram_sampleA.csv" "histogram" = true
  /\ keep "RMSD_histogram_sampleA.csv" = false
  /\ sorted (filter keep ["RMSD_sampleA_traj.csv"; "RMSD_histogram_sampleA.csv"])
     = ["RMSD_sampleA_traj.csv"].
Proof. repeat split; vm_compute; reflexivity. Qed.

(** ** The first failure of a run *)

Lemma bind_fail {A B} (m : M A) (k : A -> M B) f t :
  m = (fail f, t) -> bind m k = (fail f, t).
Proof. intros ->. now destruct f. Qed.

Lemma not_Ok_fail {A} (m : M A) :
  (forall a, fst m <> Ok a) -> exists f, fst m = fail f.
Proof.
  destruct m as [[a | s | e] t]; simpl; intros H.
  - now destruct (H a).
  - now exists (Exits s).
  - now exists (Raises e).
Qed.

Lemma bind_Ok_fail {A B} (m : M A) (k : A -> M B) a t f t' :
  m = (Ok a, t) -> k a = (fail f, t') -> bind m k = (fail f, t ++ t').
Proof. intros -> H. simpl. now rewrite H. Qed.

Section Reach.

Variable w : World.
Variables index_samples index_conditions : sheet.
Variables index_file data_out_path : string.

Hypothesis sheet0 : read_excel w index_file 0 = Some index_samples.
Hypothesis sheet1 : read_excel w index_file 1 = Some index_conditions.

(** The run has reached [item] of the condition [row]: the conditions
  [before] it and the files [earlier] in its directory went through. *)
Variables (before after : list Manifest.row) (row : Manifest.row).
Variables (dir : string) (entries earlier later : list string) (item : string).
Variables (st : Data.t * list cell) (t0 : list event) (data : Data.t) (t1 : list event).

Hypothesis reached_condition :
for_each (condition_body w index_samples index_conditions index_file) before
         (Data.empty, []) = (Ok st, t0).
Hypothesis directory : Manifest.path row = Text dir.
Hypothesis listing : listdir w dir = Some entries.
Hypothesis files : sorted (filter keep entries) = earlier ++ item :: later.
Hypothesis reached_file :
for_each (item_body w index_samples index_conditions index_file dir
                    (Manifest.condition row)) earlier (fst st) = (Ok data, t1).

Lemma kept_nonempty : (List.length (filter keep entries) =? 0)%nat = false.
Proof.
pose proof files as H.
destruct (filter keep entries) as [| fn l]; [| reflexivity].
change (sorted []) with (@nil string) in H.
symmetry in H. apply app_eq_nil in H. now destruct H.
Qed.

(** When the body fails on [item], the loop stops there, and so does the run. *)
Lemma first_failure_loop f t2 :
item_body w index_samples index_conditions index_file dir (Manifest.condition row)
          item data = (fail f, t2) ->
accumulate w (before ++ row :: after) index_file
= (fail f,
   t0 ++ Log INFO (msg_retrieving (List.length (filter keep entries))
                                   (Manifest.condition row)) :: t1 ++ t2).
Proof.
intros Hitem.
unfold accumulate. rewrite sheet0, sheet1. cbn [or_raise]. rewrite !bind_ret_l.
rewrite for_each_app. eapply bind_Ok_fail; [exact reached_condition |].
rewrite for_each_cons. apply bind_fail.
rewrite (surjective_pairing st). unfold condition_body, os_listdir.
rewrite directory, listing. cbn [or_raise cell_str]. rewrite bind_ret_l.
rewrite kept_nonempty.
change (?x :: ?l ++ t2) with ([x] ++ (l ++ t2)).
eapply bind_Ok_fail; [reflexivity |].
apply bind_fail. rewrite files, for_each_app.
eapply bind_Ok_fail; [exact reached_file |].
rewrite for_each_cons. now apply bind_fail.
Qed.

Lemma first_failure f t2 :
item_body w index_samples index_conditions index_file dir (Manifest.condition row)
          item data = (fail f, t2) ->
extract_rmsd w (before ++ row :: after) index_file data_out_path
= (fail f,
   t0 ++ Log INFO (msg_retrieving (List.length (filter keep entries))
                                   (Manifest.condition row)) :: t1 ++ t2).
Proof.
intros Hitem. unfold extract_rmsd. apply bind_fail. now apply first_failure_loop.
Qed.

End Reach.

(** A run whose loop fails ends with status 1 and has written nothing. *)
Lemma failed_loop_no_output w conditions index_file data_out_path :
  (forall st, fst (accumulate w conditions index_file) <> Ok st) ->
  exit_status (extract_rmsd w conditions index_file data_out_path) = 1%Z
  /\ forall file,
      written (snd (extract_rmsd w conditions index_file data_out_path)) file = [].
Proof.
  intros H. destruct (not_Ok_fail _ H) as [f Hf].
  destruct (tame_accumulate w conditions index_file) as [Hs Hl].
  destruct (accumulate w conditions index_file) as [o t] eqn:E. cbn [fst snd] in *.
  subst o. unfold extract_rmsd. rewrite E.
  rewrite (bind_fail (fail f, t) _ f t eq_refl).
  split; [| intros file; now apply only_logs_written].
  unfold exit_status. destruct f as [s | e]; [apply Hs |]; reflexivity.
Qed.

Lemma accumulate_Ok_items w conditions index_file st t row :
  accumulate w conditions index_file = (Ok st, t) ->
  In row conditions ->
  exists index_samples index_conditions dir entries,
    read_excel w index_file 0 = Some index_samples
    /\ read_excel w index_file 1 = Some index_conditions
    /\ Manifest.path row = Text dir
    /\ listdir w dir = Some entries
    /\ forall item, In item (sorted (filter keep entries)) ->
       exists sample df si ci,
         Re.search pattern item = Some sample
         /\ read_csv w (Path.join dir item) = Some df
         /\ has_column df "frames" = true
         /\ first_value (index_values index_samples sample) = Some si
         /\ first_value (index_values_cell index_conditions (Manifest.condition row)) = Some ci
         /\ has_column df "RMSD" = true.
Proof.
  intros H Hin. apply accumulate_Ok_inv in H. destruct H as (ss & cs & E0 & E1 & Hloop).
  destruct (for_each_Ok_In _ _ _ _ _ row Hloop Hin) as (s0 & s1 & t0 & Hrow).
  apply condition_body_Ok_items in Hrow. destruct Hrow as (dir & entries & Hp & Hl & Hi).
  now exists ss, cs, dir, entries.
Qed.

Lemma In_sorted_kept entries item :
  In item entries -> keep item = true -> In item (sorted (filter keep entries)).
Proof.
  intros Hin Hk. apply (Permutation_in _ (StringSort_perm _)).
  apply filter_In. now split.
Qed.

(** Runs that go through log no error. *)
Lemma logged_app l t1 t2 : logged l (t1 ++ t2) = logged l t1 ++ logged l t2.
Proof. unfold logged. apply flat_map_app. Qed.

Lemma items_loop_no_error w index_samples index_conditions index_file dir cond items
      data data' t :
  for_each (item_body w index_samples index_conditions index_file dir cond) items data
  = (Ok data', t) ->
  logged ERROR t = [].
Proof.
  revert data t. induction items as [| item items IH]; intros data t H.
  - now injection H as _ <-.
  - rewrite for_each_cons in H. apply bind_Ok_inv in H.
    destruct H as (d1 & t1 & t2 & Hitem & Hrest & ->).
    rewrite logged_app, (IH _ _ Hrest), app_nil_r.
    pose proof Hitem as Hi. apply item_body_Ok_inv in Hi.
    destruct Hi as (sample & df & si & ci & E1 & E2 & E3 & E4 & E5 & E6).
    destruct (Re.search pattern item) eqn:F1; [| discriminate].
    unfold item_body in Hitem. rewrite F1, E2 in Hitem. cbn [or_raise] in Hitem.
    rewrite !bind_ret_l in Hitem. unfold column_frames, column_RMSD in Hitem.
    rewrite E3 in Hitem. rewrite bind_ret_l in Hitem.
    injection E1 as ->. rewrite E4 in Hitem. cbn [or_raise] in Hitem.
    rewrite E5, E6 in Hitem. simpl in Hitem. now injection Hitem as _ <-.
Qed.

Lemma conditions_loop_no_error w index_samples index_conditions index_file conditions
      st st' t :
  for_each (condition_body w index_samples index_conditions index_file) conditions st
  = (Ok st', t) ->
  logged ERROR t = [].
Proof.
  revert st t. induction conditions as [| row conditions IH]; intros st t H.
  - now injection H as _ <-.
  - rewrite for_each_cons in H. apply bind_Ok_inv in H.
    destruct H as (s1 & t1 & t2 & Hrow & Hrest & ->).
    rewrite logged_app, (IH _ _ Hrest), app_nil_r.
    unfold condition_body in Hrow. destruct st as [d rm].
    apply bind_Ok_inv in Hrow. destruct Hrow as (entries & ta & tb & Hl & Hrow & ->).
    assert (ta = []) as ->.
    { unfold os_listdir in Hl. destruct (Manifest.path row); try discriminate.
      destruct (listdir w s); [| discriminate]. now injection Hl as _ <-. }
    destruct (_ =? _)%nat.
    + now injection Hrow as _ <-.
    + apply bind_Ok_inv in Hrow. destruct Hrow as ([] & tc & td & Hlog & Hrow & ->).
      injection Hlog as <-.
      apply bind_Ok_inv in Hrow. destruct Hrow as (d' & te & tf & Hitems & Hret & ->).
      injection Hret as _ <-. apply items_loop_no_error in Hitems.
      rewrite !logged_app, Hitems. reflexivity.
Qed.

(** ** Fatal errors *)

(** The run stops at its first failure: here the directory also holds
    [RMSDzzz.csv], which does not match the pattern, but [RMSD_a_b.csv] comes
    first in sorted order and its sample is not in the index. *)
Example first_failure_wins :
  sorted (filter keep ["RMSDzzz.csv"; "RMSD_a_b.csv"]) = ["RMSD_a_b.csv"; "RMSDzzz.csv"]
  /\ extract_rmsd stray_world [Manifest.Row (Text "WT") (Text "runs/WT") (Text "#0303fc")]
                  "index.xlsx" "out/rmsd.csv"
     = (Raise IndexError,
        [Log INFO "Retrieving 2 files data for condition: WT"; Log INFO (msg_frames "a" 1)]).
Proof. split; vm_compute; reflexivity. Qed.

(** C6: a file name that passes the filter and does not match the pattern is
    not skipped, it ends the run.  The body of the loop logs the error and
    exits with status 1 on it; a run over a manifest with such a file ends
    with status 1 and writes nothing; and when the run gets to the file (the
    conditions before it and the files sorted before it went through) it ends
    on [sys.exit(1)] with that error as its last record. *)
Theorem unmatched_name_aborts w conditions index_file data_out_path row dir entries item :
  In row conditions ->
  Manifest.path row = Text dir ->
  listdir w dir = Some entries ->
  In item entries ->
  keep item = true ->
  Re.search pattern item = None ->
  (forall index_samples index_conditions data,
      item_body w index_samples index_conditions index_file dir (Manifest.condition row)
                item data
      = (Exit 1, [Log ERROR (msg_no_match item)]))
  /\ exit_status (extract_rmsd w conditions index_file data_out_path) = 1%Z
  /\ (forall file,
         written (snd (extract_rmsd w conditions index_file data_out_path)) file = [])
  /\ (forall index_samples index_conditions before after earlier later st t0 data t1,
         read_excel w index_file 0 = Some index_samples ->
         read_excel w index_file 1 = Some index_conditions ->
         conditions = before ++ row :: after ->
         for_each (condition_body w index_samples index_conditions index_file) before
                  (Data.empty, []) = (Ok st, t0) ->
         sorted (filter keep entries) = earlier ++ item :: later ->
         for_each (item_body w index_samples index_conditions index_file dir
                             (Manifest.condition row)) earlier (fst st) = (Ok data, t1) ->
         extract_rmsd w conditions index_file data_out_path
         = (Exit 1,
            t0 ++ Log INFO (msg_retrieving (List.length (filter keep entries))
                                           (Manifest.condition row))
               :: t1 ++ [Log ERROR (msg_no_match item)])).
Proof.
  intros Hin Hp Hl Hitem Hk Hs.
  split; [intros; now apply item_body_no_match |].
  apply and_assoc. split.
  - apply failed_loop_no_output. intros st H.
    destruct (accumulate w conditions index_file) as [o t] eqn:E. cbn [fst] in H. subst o.
    destruct (accumulate_Ok_items _ _ _ _ _ row E Hin)
      as (ss & cs & dir' & entries' & _ & _ & Hp' & Hl' & Hitems).
    rewrite Hp in Hp'. injection Hp' as <-. rewrite Hl in Hl'. injection Hl' as <-.
    destruct (Hitems item (In_sorted_kept _ _ Hitem Hk)) as (s & _ & _ & _ & F & _).
    congruence.
  - intros ss cs before after earlier later st t0 data t1 E0 E1 -> Hb Hf He.
    apply (first_failure w ss cs index_file data_out_path E0 E1 before after row dir
             entries earlier later item st t0 data t1 Hb Hp Hl Hf He (Exits 1)).
    now apply item_body_no_match.
Qed.

Lemma unmatched_name_aborts_witness :
  exit_status (extract_rmsd stray_world
                 [Manifest.Row (Text "WT") (Text "runs/WT") (Text "#0303fc")]
                 "index.xlsx" "out/rmsd.csv") = 1%Z
  /\ extract_rmsd stray_world [Manifest.Row (Text "odd") (Text "runs/odd") (Text "#000000")]
                  "index.xlsx" "out/rmsd.csv"
     = (Exit 1, [Log INFO "Retrieving 1 file data for condition: odd";
                 Log ERROR (msg_no_match "RMSDzzz.csv")]).
Proof.
  split.
  - refine (proj1 (proj2
      (unmatched_name_aborts stray_world
         [Manifest.Row (Text "WT") (Text "runs/WT") (Text "#0303fc")]
         "index.xlsx" "out/rmsd.csv"
         (Manifest.Row (Text "WT") (Text "runs/WT") (Text "#0303fc"))
         "runs/WT" ["RMSDzzz.csv"; "RMSD_a_b.csv"] "RMSDzzz.csv"
         (or_introl eq_refl) eq_refl eq_refl (or_introl eq_refl) eq_refl eq_refl))).
  - refine (proj2 (proj2 (proj2
      (unmatched_name_aborts stray_world
         [Manifest.Row (Text "odd") (Text "runs/odd") (Text "#000000")]
         "index.xlsx" "out/rmsd.csv"
         (Manifest.Row (Text "odd") (Text "runs/odd") (Text "#000000"))
         "runs/odd" ["RMSDzzz.csv"] "RMSDzzz.csv"
         (or_introl eq_refl) eq_refl eq_refl (or_introl eq_refl) eq_refl eq_refl)))
      [(Text "s1", Int 0)] [(Text "WT", Int 0)] [] [] [] [] (Data.empty, []) [] Data.empty []
      eq_refl eq_refl eq_refl eq_refl eq_refl eq_refl).
Defined.




(** C8: when the run gets to a file whose sample has no row in the first
    sheet, it ends on an exception that nothing handles: exit status 1, no
    error record in the log, no file written.  When the file loads and has a
    [frames] column the exception is the [IndexError] of the lookup. *)
Theorem missing_sample_raises w index_file data_out_path index_samples index_conditions
        before after row dir entries earlier later item st t0 data t1 sample :
  read_excel w index_file 0 = Some index_samples ->
  read_excel w index_file 1 = Some index_conditions ->
  for_each (condition_body w index_samples index_conditions index_file) before
           (Data.empty, []) = (Ok st, t0) ->
  Manifest.path row = Text dir ->
  listdir w dir = Some entries ->
  sorted (filter keep entries) = earlier ++ item :: later ->
  for_each (item_body w index_samples index_conditions index_file dir
                      (Manifest.condition row)) earlier (fst st) = (Ok data, t1) ->
  Re.search pattern item = Some sample ->
  first_value (index_values index_samples sample) = None ->
  (exists e t,
      extract_rmsd w (before ++ row :: after) index_file data_out_path = (Raise e, t)
      /\ logged ERROR t = []
      /\ (forall file, written t file = []))
  /\ exit_status (extract_rmsd w (before ++ row :: after) index_file data_out_path) = 1%Z
  /\ (forall df,
         read_csv w (Path.join dir item) = Some df ->
         has_column df "frames" = true ->
         extract_rmsd w (before ++ row :: after) index_file data_out_path
         = (Raise IndexError,
            t0 ++ Log INFO (msg_retrieving (List.length (filter keep entries))
                                           (Manifest.condition row))
               :: t1 ++ [Log INFO (msg_frames sample (List.length (values df)))])).
Proof.
  intros E0 E1 Hb Hp Hl Hf He F1 F4.
  pose proof (first_failure w index_samples index_conditions index_file data_out_path
                E0 E1 before after row dir entries earlier later item st t0 data t1
                Hb Hp Hl Hf He) as FF.
  assert (Hbody : exists e t2,
             item_body w index_samples index_conditions index_file dir
                       (Manifest.condition row) item data = (Raise e, t2)
             /\ logged ERROR t2 = []
             /\ forall df, read_csv w (Path.join dir item) = Some df ->
                           has_column df "frames" = true ->
                           e = IndexError
                           /\ t2 = [Log INFO (msg_frames sample (List.length (values df)))]).
  { destruct (read_csv w (Path.join dir item)) as [df |] eqn:F2.
    - destruct (has_column df "frames") eqn:F3.
      + eexists _, _. split; [now apply (item_body_no_sample _ _ _ _ _ _ _ _ sample df) |].
        split; [reflexivity |]. intros df' [= <-] _. now split.
      + eexists _, _. split; [now apply (item_body_no_frames _ _ _ _ _ _ _ _ sample df) |].
        split; [reflexivity |]. intros df' [= <-]. congruence.
    - eexists _, _. split; [now apply (item_body_no_file _ _ _ _ _ _ _ _ sample) |].
      split; [reflexivity |]. discriminate. }
  destruct Hbody as (e & t2 & Hbody & Hlog & Hdf).
  specialize (FF (Raises e) t2 Hbody). cbn [fail] in FF.
  split; [| split].
  - exists e. eexists. split; [exact FF |]. split.
    + rewrite logged_app, (conditions_loop_no_error _ _ _ _ _ _ _ _ Hb).
      change (logged ERROR (Log INFO ?m :: ?l)) with (logged ERROR l).
      now rewrite logged_app, (items_loop_no_error _ _ _ _ _ _ _ _ _ _ He), Hlog.
    + intros file. apply only_logs_written.
      pose proof (tame_accumulate w (before ++ row :: after) index_file) as [_ L].
      now rewrite (first_failure_loop w index_samples index_conditions index_file
                     E0 E1 before after row dir entries earlier later item st t0 data t1
                     Hb Hp Hl Hf He (Raises e) t2 Hbody) in L.
  - now rewrite FF.
  - intros df F2 F3. destruct (Hdf df F2 F3) as [-> ->]. exact FF.
Qed.

Lemma missing_sample_raises_witness :
  extract_rmsd stray_world [Manifest.Row (Text "KO") (Text "runs/KO") (Text "#fc030b")]
               "index.xlsx" "out/rmsd.csv"
  = (Raise IndexError,
     [Log INFO "Retrieving 1 file data for condition: KO"; Log INFO (msg_frames "s9" 1)]).
Proof.
  exact (proj2 (proj2
    (missing_sample_raises stray_world "index.xlsx" "out/rmsd.csv"
       [(Text "s1", Int 0)] [(Text "WT", Int 0)] [] []
       (Manifest.Row (Text "KO") (Text "runs/KO") (Text "#fc030b"))
       "runs/KO" ["RMSD_s9_x.csv"] [] [] "RMSD_s9_x.csv" (Data.empty, []) [] Data.empty []
       "s9" eq_refl eq_refl eq_refl eq_refl eq_refl eq_refl eq_refl eq_refl eq_refl))
    {| columns := ["frames"; "RMSD"]; values := [(Int 1, Float "0.5")] |} eq_refl eq_refl).
Defined.

(** ** The sample name of a file *)

Lemma match_here_dot_cons p b s :
  Re.match_here (Re.DotPlus :: p) (String b s)
  = if Ascii.eqb b Str.newline then None
    else match Re.match_here (Re.DotPlus :: p) s with
         | Some g => Some g
         | None => Re.match_here p s
         end.
Proof. reflexivity. Qed.

Lemma match_here_group_cons p b s :
  Re.match_here (Re.GroupDotPlus :: p) (String b s)
  = if Ascii.eqb b Str.newline then None
    else match Re.match_here (Re.GroupDotPlus :: p) s with
         | Some g => Some (String b g)
         | None => match Re.match_here p s with
                   | Some _ => Some (Str.chr b)
                   | None => None
                   end
         end.
Proof. reflexivity. Qed.


(** The greedy [.+] before [\.csv] takes all of a non-empty [t]. *)
Lemma dot_takes_all t :
  t <> "" -> has_char Str.newline t = false ->
  Re.match_here (Re.DotPlus :: Re.lits ".csv") (t ++ ".csv") = Some "".
Proof.
  induction t as [| b t IH]; intros Hne Hnl; [now destruct Hne |].
  simpl in Hnl. apply orb_false_iff in Hnl. destruct Hnl as [Hb Hnl].
  change (String b t ++ ".csv")%string with (String b (t ++ ".csv"))%string.
  rewrite match_here_dot_cons, Hb.
  destruct t as [| c t]; [reflexivity |].
  rewrite IH; [reflexivity | discriminate | exact Hnl].
Qed.

(** Without an underscore the group has nothing to stop at. *)
Lemma group_needs_underscore u :
  has_char "_" u = false -> Re.match_here group_pattern u = None.
Proof.
  unfold group_pattern. induction u as [| b u IH]; intros Hu; [reflexivity |].
  simpl in Hu. apply orb_false_iff in Hu. destruct Hu as [Hb Hu].
  rewrite match_here_group_cons, (IH Hu).
  destruct (Ascii.eqb b Str.newline); [reflexivity |].
  destruct u as [| c u]; [reflexivity |].
  simpl in Hu. apply orb_false_iff in Hu. destruct Hu as [Hc _].
  unfold tail_pattern. cbn [Re.match_here]. rewrite Ascii.eqb_sym, Hc. reflexivity.
Qed.

Lemma group_takes_longest g t :
  g <> "" -> t <> "" ->
  has_char "_" t = false ->
  has_char Str.newline g = false ->
  has_char Str.newline t = false ->
  Re.match_here group_pattern (g ++ "_" ++ t ++ ".csv") = Some g.
Proof.
  intros Hg Ht Hu Hng Hnt. unfold group_pattern.
  induction g as [| b g IH]; [now destruct Hg |].
  simpl in Hng. apply orb_false_iff in Hng. destruct Hng as [Hb Hng].
  change (String b g ++ "_" ++ t ++ ".csv")%string with (String b (g ++ "_" ++ t ++ ".csv"))%string.
  rewrite match_here_group_cons, Hb.
  destruct g as [| c g].
  - change ("" ++ "_" ++ t ++ ".csv")%string with (String "_" (t ++ ".csv"))%string.
    rewrite match_here_group_cons. change (Ascii.eqb "_" Str.newline) with false.
    cbv iota. fold group_pattern.
    rewrite (group_needs_underscore (t ++ ".csv")%string)
      by (rewrite has_char_app, Hu; reflexivity).
    destruct t as [| d t]; [now destruct Ht |].
    simpl in Hu. apply orb_false_iff in Hu. destruct Hu as [Hd _].
    assert (E : Re.match_here tail_pattern (String d t ++ ".csv")%string = None).
    { unfold tail_pattern. change (String d t ++ ".csv")%string with (String d (t ++ ".csv"))%string.
      cbn [Re.match_here]. now rewrite Ascii.eqb_sym, Hd. }
    rewrite E.
    assert (F : Re.match_here tail_pattern (String "_" (String d t ++ ".csv")%string) = Some "").
    { unfold tail_pattern.
      change (Re.match_here (Re.Lit "_" :: ?p) (String "_" ?s)) with (Re.match_here p s).
      now apply dot_takes_all. }
    rewrite F. reflexivity.
  - rewrite IH; [reflexivity | discriminate | exact Hng].
Qed.

Lemma drop_csv_app x : drop_csv (x ++ ".csv") = Some x.
Proof.
  induction x as [| c x IH]; [reflexivity |].
  change (String c x ++ ".csv")%string with (String c (x ++ ".csv"))%string.
  cbn [drop_csv]. now rewrite IH.
Qed.

Lemma before_last_underscore_none t :
  has_char "_" t = false -> before_last_underscore t = None.
Proof.
  induction t as [| c t IH]; intros H; [reflexivity |].
  simpl in H. apply orb_false_iff in H. destruct H as [Hc H].
  cbn [before_last_underscore]. now rewrite (IH H), Hc.
Qed.

Lemma before_last_underscore_app g t :
  has_char "_" t = false -> before_last_underscore (g ++ "_" ++ t) = Some g.
Proof.
  intros H. induction g as [| c g IH].
  - change ("" ++ "_" ++ t)%string with (String "_" t)%string. cbn [before_last_underscore].
    now rewrite (before_last_underscore_none t H).
  - change (String c g ++ "_" ++ t)%string with (String c (g ++ "_" ++ t))%string.
    cbn [before_last_underscore]. now rewrite IH.
Qed.


Lemma search_at_start p s g : Re.match_here p s = Some g -> Re.search p s = Some g.
Proof.
  intros H. destruct s as [| a s].
  - change (Re.search p "") with (match Re.match_here p "" with
                                  | Some g => Some g
                                  | None => None
                                  end).
    now rewrite H.
  - change (Re.search p (String a s)) with (match Re.match_here p (String a s) with
                                            | Some g => Some g
                                            | None => Re.search p s
                                            end).
    now rewrite H.
Qed.

(** C10, as stated, fails: [RMSD_a_b_.csv] passes the filter and has three
    underscores; the text between [RMSD_] and the last underscore before
    [.csv] is [a_b], but the pattern wants a character after its underscore
    and gives [a]. *)
Lemma greedy_sample_counterexample :
  keep "RMSD_a_b_.csv" = true
  /\ count_char "_" "RMSD_a_b_.csv" = 3
  /\ spec_sample "RMSD_a_b_.csv" = Some "a_b"
  /\ Re.search pattern "RMSD_a_b_.csv" = Some "a".
Proof. repeat split; vm_compute; reflexivity. Qed.

(** C10, amended: for a file name [RMSD_<g>_<t>.csv] with [g] and [t] not
    empty, no underscore in [t] and no newline in either, the sample name is
    all of [g], up to the last underscore, however many underscores [g] has:
    [a_b] for [RMSD_a_b_c.csv], not [a]. *)
Theorem greedy_sample g t :
  g <> "" -> t <> "" ->
  has_char "_" t = false ->
  has_char Str.newline g = false ->
  has_char Str.newline t = false ->
  Re.search pattern ("RMSD_" ++ g ++ "_" ++ t ++ ".csv") = Some g
  /\ spec_sample ("RMSD_" ++ g ++ "_" ++ t ++ ".csv") = Some g
  /\ Re.search pattern "RMSD_a_b_c.csv" = Some "a_b".
Proof.
  intros Hg Ht Hu Hng Hnt. split; [| split; [| reflexivity]].
  - apply search_at_start.
    change (Re.match_here pattern ("RMSD_" ++ g ++ "_" ++ t ++ ".csv"))
      with (Re.match_here group_pattern (g ++ "_" ++ t ++ ".csv")).
    now apply group_takes_longest.
  - unfold spec_sample.
    change (strip_prefix "RMSD_" ("RMSD_" ++ g ++ "_" ++ t ++ ".csv"))
      with (Some (g ++ "_" ++ t ++ ".csv")%string).
    replace (g ++ "_" ++ t ++ ".csv")%string with ((g ++ "_" ++ t) ++ ".csv")%string.
    + rewrite drop_csv_app. now apply before_last_underscore_app.
    + now rewrite !string_app_assoc.
Qed.

Lemma greedy_sample_witness :
  Re.search pattern "RMSD_run_1_rep_2_traj.csv" = Some "run_1_rep_2".
Proof.
  assert (N : forall c s, String c s <> "") by discriminate.
  exact (proj1 (greedy_sample "run_1_rep_2" "traj" (N _ _) (N _ _) eq_refl eq_refl eq_refl)).
Defined.

(** ** The manifest *)


Lemma filter_all {A} (f : A -> bool) l : (forall x, In x l -> f x = true) -> filter f l = l.
Proof.
  induction l as [| x l IH]; intros H; [reflexivity |].
  simpl. rewrite (H x (or_introl eq_refl)), IH; [reflexivity |].
  intros y Hy. apply H. now right.
Qed.

Lemma existsb_none {A} (f : A -> bool) l : (forall x, In x l -> f x = false) -> existsb f l = false.
Proof.
  induction l as [| x l IH]; intros H; [reflexivity |].
  simpl. rewrite (H x (or_introl eq_refl)), IH; [reflexivity |].
  intros y Hy. apply H. now right.
Qed.






(** * Further properties of [extract_rmsd] *)

(** ** How a run can end *)

(** The loop leaves the four columns as those of a list of rows. *)
Lemma accumulate_of_rows w conditions index_file st t :
  accumulate w conditions index_file = (Ok st, t) ->
  exists index_samples index_conditions,
    read_excel w index_file 0 = Some index_samples
    /\ read_excel w index_file 1 = Some index_conditions
    /\ fst st = of_rows (expected_table w index_samples index_conditions conditions).
Proof.
  intros H. apply accumulate_Ok_inv in H. destruct H as (ss & cs & E0 & E1 & Hloop).
  exists ss, cs. split; [exact E0 | split; [exact E1 |]].
  destruct st as [d rm]. change Data.empty with (of_rows []) in Hloop.
  apply conditions_loop_Ok in Hloop. destruct Hloop as [-> _].
  unfold expected_table. now rewrite flat_map_not_skipped.
Qed.

(** The end of a run whose loop went through. *)
Lemma finish_of_rows w index_file data_out_path rows :
  finish w index_file data_out_path (of_rows rows)
  = if samefile w index_file (destination index_file data_out_path)
    then (Raise SameFileError,
          [ToCsv data_out_path (to_csv_text w rows); Log INFO (msg_written data_out_path)])
    else (Ok tt,
          [ToCsv data_out_path (to_csv_text w rows); Log INFO (msg_written data_out_path);
           CopyFile index_file (destination index_file data_out_path);
           Log INFO (msg_copied (destination index_file data_out_path))]).
Proof.
  unfold finish, copyfile. fold (destination index_file data_out_path).
  rewrite from_dict_of_rows, bind_ret_l.
  destruct (samefile w index_file (destination index_file data_out_path)); reflexivity.
Qed.

(** X1: the four lists of [data] stay aligned: when the loop has gone
    through, each of them has as many entries as the [frames] columns of the
    files read have, all together, so that [DataFrame.from_dict] does not
    raise its [ValueError] for columns of different lengths. *)
Theorem columns_stay_aligned w conditions index_file st t :
  accumulate w conditions index_file = (Ok st, t) ->
  List.length (Data.sample (fst st)) = list_sum (map (condition_frames w) conditions)
  /\ List.length (Data.condition (fst st)) = list_sum (map (condition_frames w) conditions)
  /\ List.length (Data.frame (fst st)) = list_sum (map (condition_frames w) conditions)
  /\ List.length (Data.RMSD (fst st)) = list_sum (map (condition_frames w) conditions)
  /\ exists df,
      from_dict (fst st) = (Ok df, [])
      /\ List.length df = list_sum (map (condition_frames w) conditions).
Proof.
  intros H. apply accumulate_Ok_inv in H. destruct H as (ss & cs & _ & _ & Hloop).
  destruct st as [d rm]. change Data.empty with (of_rows []) in Hloop.
  apply conditions_loop_Ok in Hloop. destruct Hloop as [-> Hlen].
  cbn [fst app]. unfold of_rows at 1 2 3 4.
  cbn [Data.sample Data.condition Data.frame Data.RMSD].
  rewrite !length_map, Hlen. repeat split.
  eexists. split; [apply from_dict_of_rows | exact Hlen].
Qed.

Lemma columns_stay_aligned_witness :
  exists st t,
    accumulate demo_world demo_conditions "data/index.xlsx" = (Ok st, t)
    /\ List.length (Data.RMSD (fst st)) = 6.
Proof.
  destruct (accumulate demo_world demo_conditions "data/index.xlsx") as [[st | s | e] t]
    eqn:Hacc; [| vm_compute in Hacc; discriminate | vm_compute in Hacc; discriminate].
  exists st, t. split; [reflexivity |].
  destruct (columns_stay_aligned demo_world demo_conditions "data/index.xlsx" st t Hacc)
    as (_ & _ & _ & Hr & _).
  rewrite Hr. vm_compute. reflexivity.
Defined.

(** X2: the events of a run are log records, then at most the table written
    to the output path and its record, then at most the copy of the index
    file to its destination and its record.  A run with log records only did
    not end normally, a run with the table and no copy ended on an exception,
    and a run with the copy ended normally. *)
Theorem run_events w conditions index_file data_out_path :
  exists t1,
    only_logs t1
    /\ ((snd (extract_rmsd w conditions index_file data_out_path) = t1
         /\ exists f, fst (extract_rmsd w conditions index_file data_out_path) = fail f)
        \/ (exists text e,
               extract_rmsd w conditions index_file data_out_path
               = (Raise e,
                  t1 ++ [ToCsv data_out_path text; Log INFO (msg_written data_out_path)]))
        \/ (exists text,
               extract_rmsd w conditions index_file data_out_path
               = (Ok tt,
                  t1 ++ [ToCsv data_out_path text; Log INFO (msg_written data_out_path);
                         CopyFile index_file (destination index_file data_out_path);
                         Log INFO (msg_copied (destination index_file data_out_path))]))).
Proof.
  unfold extract_rmsd.
  pose proof (tame_accumulate w conditions index_file) as [_ L].
  destruct (accumulate w conditions index_file) as [[st | s | e] t] eqn:E;
    exists t; (split; [exact L |]).
  - destruct (accumulate_of_rows _ _ _ _ _ E) as (ss & cs & _ & _ & Hd).
    rewrite (bind_trace _ _ _ _ eq_refl), Hd, finish_of_rows.
    destruct (samefile w index_file _); cbn [fst snd].
    + right. left. eexists _, _. reflexivity.
    + right. right. eexists. reflexivity.
  - left. split; [reflexivity |]. now exists (Exits s).
  - left. split; [reflexivity |]. now exists (Raises e).
Qed.

(** ** The copy of the index file *)

(** X3: when the index file already is the file it would be copied to, the
    loop having gone through, the table is written all the same and the run
    then ends on [SameFileError], with exit status 1 and no copy. *)
Theorem copy_onto_itself w conditions index_file data_out_path st t1 :
  accumulate w conditions index_file = (Ok st, t1) ->
  samefile w index_file (destination index_file data_out_path) = true ->
  exists index_samples index_conditions,
    read_excel w index_file 0 = Some index_samples
    /\ read_excel w index_file 1 = Some index_conditions
    /\ extract_rmsd w conditions index_file data_out_path
       = (Raise SameFileError,
          t1 ++ [ToCsv data_out_path
                       (to_csv_text w (expected_table w index_samples index_conditions
                                                    conditions));
                 Log INFO (msg_written data_out_path)])
    /\ exit_status (extract_rmsd w conditions index_file data_out_path) = 1%Z.
Proof.
  intros Hacc Hsame.
  destruct (accumulate_of_rows _ _ _ _ _ Hacc) as (ss & cs & E0 & E1 & Hd).
  exists ss, cs. split; [exact E0 | split; [exact E1 |]].
  assert (E : extract_rmsd w conditions index_file data_out_path
              = (Raise SameFileError,
                 t1 ++ [ToCsv data_out_path (to_csv_text w (expected_table w ss cs conditions));
                        Log INFO (msg_written data_out_path)])).
  { unfold extract_rmsd.
    now rewrite (bind_trace _ _ _ _ Hacc), Hd, finish_of_rows, Hsame. }
  split; [exact E | now rewrite E].
Qed.

Lemma copy_onto_itself_witness :
  exit_status (extract_rmsd demo_world demo_conditions "data/index.xlsx" "data/out.csv") = 1%Z.
Proof.
  destruct (accumulate demo_world demo_conditions "data/index.xlsx") as [[st | s | e] t1]
    eqn:Hacc; [| vm_compute in Hacc; discriminate | vm_compute in Hacc; discriminate].
  destruct (copy_onto_itself demo_world demo_conditions "data/index.xlsx" "data/out.csv"
              st t1 Hacc eq_refl) as (ss & cs & _ & _ & _ & Hs).
  exact Hs.
Defined.

(** ** Manifests whose conditions are all skipped *)

Lemma skip_all w index_samples index_conditions index_file conditions data rm :
  Forall (empty_condition w) conditions ->
  for_each (condition_body w index_samples index_conditions index_file) conditions (data, rm)
  = (Ok (data, rm ++ map Manifest.condition conditions),
     map (fun row => Log WARNING (msg_no_files (Manifest.condition row))) conditions).
Proof.
  intros H. revert rm. induction H as [| row conditions Hrow _ IH]; intros rm.
  - rewrite for_each_nil. cbn [map]. now rewrite app_nil_r.
  - destruct Hrow as (dir & entries & Hp & Hl & Hk).
    rewrite for_each_cons,
      (condition_body_skip w index_samples index_conditions index_file row dir entries
         data rm Hp Hl Hk).
    rewrite (bind_trace _ _ _ _ eq_refl), IH. cbn [fst snd map app].
    now rewrite <- app_assoc.
Qed.

(** X4: when the two sheets of the index file load, the directory of every
    condition lists and holds no kept file, and the index file is not already
    the file of its name in the directory of the output, the run ends
    normally all the same: one warning per condition, a table of the header
    line alone, and the copy of the index file. *)
Theorem all_skipped_header_only w conditions index_file data_out_path
        index_samples index_conditions :
  read_excel w index_file 0 = Some index_samples ->
  read_excel w index_file 1 = Some index_conditions ->
  Forall (empty_condition w) conditions ->
  samefile w index_file (destination index_file data_out_path) = false ->
  extract_rmsd w conditions index_file data_out_path
  = (Ok tt,
     map (fun row => Log WARNING (msg_no_files (Manifest.condition row))) conditions
     ++ [ToCsv data_out_path ("sample,condition,frame,RMSD" ++ Str.chr Str.newline);
         Log INFO (msg_written data_out_path);
         CopyFile index_file (destination index_file data_out_path);
         Log INFO (msg_copied (destination index_file data_out_path))]).
Proof.
  intros E0 E1 Hall Hsame. unfold extract_rmsd, accumulate. rewrite E0, E1.
  cbn [or_raise]. rewrite !bind_ret_l.
  rewrite (skip_all w index_samples index_conditions index_file conditions Data.empty []
             Hall).
  rewrite (bind_trace _ _ _ _ eq_refl). cbn [fst snd].
  change Data.empty with (of_rows []). now rewrite finish_of_rows, Hsame.
Qed.

Lemma all_skipped_header_only_witness :
  extract_rmsd demo_world [Manifest.Row (Text "KO") (Text "inputs/KO") (Text "#00ff00")]
               "data/index.xlsx" "results/out.csv"
  = (Ok tt,
     [Log WARNING (msg_no_files (Text "KO"));
      ToCsv "results/out.csv" ("sample,condition,frame,RMSD" ++ Str.chr Str.newline);
      Log INFO (msg_written "results/out.csv");
      CopyFile "data/index.xlsx" "results/index.xlsx";
      Log INFO (msg_copied "results/index.xlsx")]).
Proof.
  refine (all_skipped_header_only demo_world
            [Manifest.Row (Text "KO") (Text "inputs/KO") (Text "#00ff00")]
            "data/index.xlsx" "results/out.csv" _ _ eq_refl eq_refl _ eq_refl).
  constructor; [| constructor].
  exists "inputs/KO", ["readme.md"]. repeat split.
  intros fn [<- | []]. reflexivity.
Defined.

(** ** Warnings *)

Lemma item_body_Ok_trace w index_samples index_conditions index_file dir cond item
      data data' t :
  item_body w index_samples index_conditions index_file dir cond item data = (Ok data', t) ->
  exists sample n, t = [Log INFO (msg_frames sample n)].
Proof.
  intros Hitem. pose proof Hitem as Hi. apply item_body_Ok_inv in Hi.
  destruct Hi as (sample & df & si & ci & E1 & E2 & E3 & E4 & E5 & E6).
  unfold item_body in Hitem. rewrite E1, E2 in Hitem. cbn [or_raise] in Hitem.
  rewrite !bind_ret_l in Hitem. unfold column_frames, column_RMSD in Hitem.
  rewrite E3 in Hitem. rewrite bind_ret_l in Hitem.
  rewrite E4 in Hitem. cbn [or_raise] in Hitem.
  rewrite E5, E6 in Hitem. simpl in Hitem. injection Hitem as _ <-.
  now eexists _, _.
Qed.

Lemma logged_warning_items w index_samples index_conditions index_file dir cond items
      data data' t :
  for_each (item_body w index_samples index_conditions index_file dir cond) items data
  = (Ok data', t) ->
  logged WARNING t = [].
Proof.
  revert data t. induction items as [| item items IH]; intros data t H.
  - now injection H as _ <-.
  - rewrite for_each_cons in H. apply bind_Ok_inv in H.
    destruct H as (d1 & t1 & t2 & Hitem & Hrest & ->).
    rewrite logged_app, (IH _ _ Hrest), app_nil_r.
    apply item_body_Ok_trace in Hitem. now destruct Hitem as (sample & n & ->).
Qed.

Lemma skipped_by_listing w row dir entries :
  Manifest.path row = Text dir ->
  listdir w dir = Some entries ->
  skipped w row = (List.length (filter keep entries) =? 0)%nat.
Proof.
  intros Hp Hl. unfold skipped, condition_files. rewrite Hp, Hl.
  destruct (filter keep entries) as [| fn kept]; [reflexivity |].
  destruct (sorted (fn :: kept)) as [| x l] eqn:Es; [| reflexivity].
  pose proof (StringSort_perm (fn :: kept)) as P. rewrite Es in P.
  apply Permutation_sym, Permutation_nil in P. discriminate.
Qed.

(** X5: on a run whose loop went through, the warnings logged are those of
    the skipped conditions, one each and in manifest order, and
    [conditions_to_remove] holds the names of these conditions. *)
Theorem warnings_of_skipped w index_samples index_conditions index_file conditions st t :
  for_each (condition_body w index_samples index_conditions index_file) conditions
           (Data.empty, []) = (Ok st, t) ->
  logged WARNING t
  = map (fun row => msg_no_files (Manifest.condition row)) (filter (skipped w) conditions)
  /\ snd st = map Manifest.condition (filter (skipped w) conditions).
Proof.
  assert (G : forall data rm st t,
             for_each (condition_body w index_samples index_conditions index_file)
                      conditions (data, rm) = (Ok st, t) ->
             logged WARNING t
             = map (fun row => msg_no_files (Manifest.condition row))
                   (filter (skipped w) conditions)
             /\ snd st = rm ++ map Manifest.condition (filter (skipped w) conditions)).
  { clear st t. induction conditions as [| row conditions IH]; intros data rm st t H.
    - injection H as <- <-. cbn. now rewrite app_nil_r.
    - rewrite for_each_cons in H. apply bind_Ok_inv in H.
      destruct H as ([d1 rm1] & t1 & t2 & Hrow & Hrest & ->).
      apply IH in Hrest. destruct Hrest as [Hw Hrm].
      rewrite logged_app, Hw, Hrm. clear IH Hw Hrm.
      unfold condition_body, os_listdir in Hrow. cbn [filter].
      destruct (Manifest.path row) as [dir | | | |] eqn:Hp;
        try (simpl in Hrow; discriminate).
      destruct (listdir w dir) as [entries |] eqn:Hl; [| simpl in Hrow; discriminate].
      rewrite (skipped_by_listing w row dir entries Hp Hl).
      cbn [or_raise] in Hrow. rewrite bind_ret_l in Hrow.
      destruct (List.length (filter keep entries) =? 0)%nat.
      + apply bind_Ok_inv in Hrow. destruct Hrow as ([] & ta & tb & Hlog & Hret & ->).
        injection Hlog as <-. injection Hret as <- <- <-.
        cbn [map]. split; [reflexivity |]. now rewrite <- app_assoc.
      + apply bind_Ok_inv in Hrow. destruct Hrow as ([] & ta & tb & Hlog & Hrow & ->).
        injection Hlog as <-.
        apply bind_Ok_inv in Hrow. destruct Hrow as (d' & tc & td & Hitems & Hret & ->).
        injection Hret as _ <- <-. apply logged_warning_items in Hitems.
        rewrite !logged_app, Hitems. split; reflexivity. }
  intros H. apply G in H. exact H.
Qed.

Lemma warnings_of_skipped_witness :
  exists st t,
    for_each (condition_body demo_world [(Text "s1", Int 0); (Text "s2", Int 1); (Text "s3", Int 2)]
                             [(Text "WT", Int 0); (Text "insertions", Int 1)] "data/index.xlsx")
             demo_conditions (Data.empty, []) = (Ok st, t)
    /\ logged WARNING t = ["Condition KO: no RMSD files, this condition is skipped."].
Proof.
  destruct (for_each (condition_body demo_world [(Text "s1", Int 0); (Text "s2", Int 1); (Text "s3", Int 2)]
                        [(Text "WT", Int 0); (Text "insertions", Int 1)] "data/index.xlsx")
                     demo_conditions (Data.empty, [])) as [[st | s | e] t] eqn:H;
    [| vm_compute in H; discriminate | vm_compute in H; discriminate].
  exists st, t. split; [reflexivity |].
  rewrite (proj1 (warnings_of_skipped _ _ _ _ _ _ _ H)). vm_compute. reflexivity.
Defined.

(** ** Lookups in the index *)

Lemma value_eqb_Text x name : value_eqb x (Text name) = true -> x = Text name.
Proof.
  destruct x as [s | | n | r | b]; try discriminate.
  cbn [value_eqb]. intros H. apply String.eqb_eq in H. now subst.
Qed.

(** X6: a name is given the index of its first row in the sheet, whatever
    rows follow (a second row of that name among them); a sheet without a row
    of that name gives no index. *)
Theorem first_row_wins (before : sheet) name i (after : sheet) :
  ~ In (Text name) (map fst before) ->
  first_value (index_values before name) = None
  /\ first_value (index_values (before ++ (Text name, i) :: after) name) = Some i.
Proof.
  intros H. unfold index_values, first_value.
  assert (E : filter (fun r => value_eqb (fst r) (Text name)) before = []).
  { induction before as [| [n j] before IH]; [reflexivity |].
    cbn [filter fst map] in *. destruct (value_eqb n (Text name)) eqn:En.
    - exfalso. apply H. left. now apply value_eqb_Text.
    - apply IH. intros Hin. apply H. now right. }
  rewrite filter_app, E. cbn [filter fst value_eqb]. rewrite String.eqb_refl. now split.
Qed.

Lemma first_row_wins_witness :
  first_value (index_values [(Text "s1", Int 0); (Text "s2", Int 1); (Text "s2", Int 7)] "s2")
  = Some (Int 1).
Proof.
  refine (proj2 (first_row_wins [(Text "s1", Int 0)] "s2" (Int 1) [(Text "s2", Int 7)] _)).
  intros [H | []]. discriminate.
Defined.

(** * Further properties of the pattern *)

Lemma match_lits_inv p q s g :
  Re.match_here (Re.lits p ++ q) s = Some g ->
  exists s', s = (p ++ s')%string /\ Re.match_here q s' = Some g.
Proof.
  revert s. induction p as [| c p IH]; intros s H.
  - now exists s.
  - cbn [Re.lits app Re.match_here] in H. destruct s as [| b s]; [discriminate |].
    destruct (Ascii.eqb_spec c b) as [-> | _]; [| discriminate].
    destruct (IH s H) as (s' & -> & Hq). now exists s'.
Qed.

Lemma match_dot_inv p s x :
  Re.match_here (Re.DotPlus :: p) s = Some x ->
  exists t rest,
    s = (t ++ rest)%string /\ t <> "" /\ has_char Str.newline t = false
    /\ Re.match_here p rest = Some x.
Proof.
  induction s as [| b s IH]; intros H; [discriminate |].
  rewrite match_here_dot_cons in H.
  destruct (Ascii.eqb b Str.newline) eqn:Hb; [discriminate |].
  destruct (Re.match_here (Re.DotPlus :: p) s) as [y |] eqn:E.
  - injection H as ->. destruct (IH eq_refl) as (t & rest & -> & _ & Hnl & Hp).
    exists (String b t), rest. repeat split; try assumption; try discriminate.
    simpl. now rewrite Hb.
  - exists (String b ""), s. repeat split; try assumption; try discriminate.
    simpl. now rewrite Hb.
Qed.

Lemma match_group_inv p s g :
  Re.match_here (Re.GroupDotPlus :: p) s = Some g ->
  exists rest,
    s = (g ++ rest)%string /\ g <> "" /\ has_char Str.newline g = false
    /\ Re.match_here p rest <> None.
Proof.
  revert g. induction s as [| b s IH]; intros g H; [discriminate |].
  rewrite match_here_group_cons in H.
  destruct (Ascii.eqb b Str.newline) eqn:Hb; [discriminate |].
  destruct (Re.match_here (Re.GroupDotPlus :: p) s) as [y |] eqn:E.
  - injection H as <-. destruct (IH y eq_refl) as (rest & -> & _ & Hnl & Hp).
    exists rest. repeat split; try assumption; try discriminate.
    simpl. now rewrite Hb.
  - destruct (Re.match_here p s) as [z |] eqn:F; [| discriminate].
    injection H as <-. exists s. repeat split; try discriminate.
    + simpl. now rewrite Hb.
    + now rewrite F.
Qed.

Lemma search_inv p s g :
  Re.search p s = Some g ->
  exists pre s', s = (pre ++ s')%string /\ Re.match_here p s' = Some g.
Proof.
  induction s as [| b s IH]; intros H.
  - change (Re.search p "") with (match Re.match_here p "" with
                                  | Some g => Some g
                                  | None => None
                                  end) in H.
    destruct (Re.match_here p "") eqn:E; [| discriminate].
    injection H as ->. now exists "", "".
  - change (Re.search p (String b s)) with (match Re.match_here p (String b s) with
                                            | Some g => Some g
                                            | None => Re.search p s
                                            end) in H.
    destruct (Re.match_here p (String b s)) eqn:E.
    + injection H as ->. now exists "", (String b s).
    + destruct (IH H) as (pre & s' & -> & Hm). now exists (String b pre), s'.
Qed.

(** X7: a sample name the pattern gives is a piece of the file name: it
    stands right after an [RMSD_], has a character at least and no newline,
    and is followed by an underscore, one character or more without a
    newline, and [.csv]. *)
Theorem sample_name_sound fn g :
  Re.search pattern fn = Some g ->
  exists pre t post,
    fn = (pre ++ "RMSD_" ++ g ++ "_" ++ t ++ ".csv" ++ post)%string
    /\ g <> "" /\ t <> ""
    /\ has_char Str.newline g = false
    /\ has_char Str.newline t = false.
Proof.
  intros H. apply search_inv in H. destruct H as (pre & s1 & -> & H).
  change pattern with (Re.lits "RMSD_" ++ group_pattern) in H.
  apply match_lits_inv in H. destruct H as (s2 & -> & H).
  unfold group_pattern in H. apply match_group_inv in H.
  destruct H as (s3 & -> & Hg & Hng & H).
  destruct (Re.match_here tail_pattern s3) as [x |] eqn:E; [clear H | now destruct H].
  change tail_pattern with (Re.lits "_" ++ Re.DotPlus :: Re.lits ".csv") in E.
  apply match_lits_inv in E. destruct E as (s4 & -> & E).
  apply match_dot_inv in E. destruct E as (t & s5 & -> & Ht & Hnt & E).
  rewrite <- (app_nil_r (Re.lits ".csv")) in E.
  apply match_lits_inv in E. destruct E as (post & -> & _).
  exists pre, t, post. repeat split; assumption.
Qed.

Lemma sample_name_sound_witness :
  exists pre t post,
    "RMSD_s1_x.csv" = (pre ++ "RMSD_" ++ "s1" ++ "_" ++ t ++ ".csv" ++ post)%string.
Proof.
  destruct (sample_name_sound "RMSD_s1_x.csv" "s1" eq_refl) as (pre & t & post & E & _).
  now exists pre, t, post.
Defined.

Lemma count_char_app c s1 s2 :
  count_char c (s1 ++ s2) = count_char c s1 + count_char c s2.
Proof. induction s1 as [| b s1 IH]; simpl; [reflexivity |]. rewrite IH. lia. Qed.

(** X8: a file name with fewer than two underscores, [RMSD_s1.csv] for one,
    does not match the pattern, and the body of the loop ends the run on it
    with the error logged. *)
Theorem two_underscores_needed item :
  count_char "_" item < 2 ->
  Re.search pattern item = None
  /\ forall w index_samples index_conditions index_file dir cond data,
      item_body w index_samples index_conditions index_file dir cond item data
      = (Exit 1, [Log ERROR (msg_no_match item)]).
Proof.
  intros H.
  assert (E : Re.search pattern item = None).
  { destruct (Re.search pattern item) as [g |] eqn:E; [| reflexivity].
    apply sample_name_sound in E. destruct E as (pre & t & post & -> & _).
    rewrite !count_char_app in H. simpl in H. lia. }
  split; [exact E |]. intros. now apply item_body_no_match.
Qed.

Lemma two_underscores_needed_witness :
  keep "RMSD_s1.csv" = true /\ Re.search pattern "RMSD_s1.csv" = None.
Proof.
  split; [reflexivity |].
  refine (proj1 (two_underscores_needed "RMSD_s1.csv" _)). simpl. lia.
Defined.

(** * Properties of the paths *)

Lemma string_length_app (h t : string) :
  String.length (h ++ t) = String.length h + String.length t.
Proof. induction h as [| c h IH]; simpl; [reflexivity | now rewrite IH]. Qed.

Lemma substring_all t : substring 0 (String.length t) t = t.
Proof. induction t as [| c t IH]; simpl; [reflexivity | now rewrite IH]. Qed.

Lemma substring_prefix h t : substring 0 (String.length h) (h ++ t) = h.
Proof.
  induction h as [| c h IH]; simpl; [now destruct t | now rewrite IH].
Qed.

Lemma substring_suffix h t :
  substring (String.length h) (String.length t) (h ++ t) = t.
Proof. induction h as [| c h IH]; simpl; [apply substring_all | exact IH]. Qed.

Lemma no_slash_after_last b : has_char "/" b = false -> Str.after_last_slash b = 0.
Proof.
  induction b as [| c b IH]; intros H; [reflexivity |].
  simpl in H. apply orb_false_iff in H. destruct H as [Hc H].
  simpl. now rewrite (IH H), Hc.
Qed.

Lemma after_last_slash_app X b :
  has_char "/" b = false -> Str.after_last_slash (X ++ b) = Str.after_last_slash X.
Proof.
  intros H. induction X as [| c X IH]; simpl.
  - now apply no_slash_after_last.
  - now rewrite IH.
Qed.

Lemma after_last_slash_ends X :
  Str.endswith X "/" = true -> Str.after_last_slash X = String.length X.
Proof.
  induction X as [| c X IH]; intros H; [discriminate |].
  destruct X as [| d X].
  - simpl in H. simpl. destruct (Ascii.eqb c "/"); [reflexivity | discriminate].
  - assert (H' : Str.endswith (String d X) "/" = true).
    { cbn [Str.endswith] in H. apply orb_true_iff in H. destruct H as [H | H]; [| exact H].
      simpl in H. destruct (Ascii.eqb c "/"); discriminate. }
    specialize (IH H'). cbn [Str.after_last_slash String.length] in *. now rewrite IH.
Qed.

Lemma endswith_app_slash D : Str.endswith (D ++ "/") "/" = true.
Proof.
  induction D as [| c D IH]; [reflexivity |].
  change (String c D ++ "/")%string with (String c (D ++ "/")).
  cbn [Str.endswith]. rewrite IH. apply orb_true_r.
Qed.

Lemma no_slash_startswith b : has_char "/" b = false -> Str.startswith b "/" = false.
Proof.
  destruct b as [| c b]; [reflexivity |]. cbn [has_char]. intros H.
  apply orb_false_iff in H. destruct H as [Hc _].
  cbn [Str.startswith]. now rewrite Ascii.eqb_sym, Hc.
Qed.

Lemma basename_app X b :
  has_char "/" b = false ->
  X = "" \/ Str.endswith X "/" = true ->
  Path.basename (X ++ b) = b.
Proof.
  intros Hb HX. unfold Path.basename.
  rewrite (after_last_slash_app X b Hb), string_length_app.
  assert (E : Str.after_last_slash X = String.length X).
  { destruct HX as [-> | HX]; [reflexivity | now apply after_last_slash_ends]. }
  rewrite E. replace (String.length X + String.length b - String.length X)
    with (String.length b) by lia.
  apply substring_suffix.
Qed.

(** A path splits at its last slash. *)
Lemma split_at_last_slash p :
  exists h t,
    p = (h ++ t)%string
    /\ Str.after_last_slash p = String.length h
    /\ has_char "/" t = false
    /\ (h = "" \/ Str.endswith h "/" = true).
Proof.
  induction p as [| c p (h & t & -> & Ha & Ht & Hh)].
  - exists "", "". repeat split. now left.
  - cbn [Str.after_last_slash]. rewrite Ha. destruct h as [| d h].
    + cbn [String.length]. destruct (Ascii.eqb c "/") eqn:Hc.
      * apply Ascii.eqb_eq in Hc. subst c. exists "/", t. repeat split; auto.
      * exists "", (String c t). repeat split; auto. simpl. now rewrite Hc.
    + exists (String c (String d h)), t. repeat split; auto.
      right. destruct Hh as [Hh | Hh]; [discriminate |].
      cbn [Str.endswith] in *. rewrite Hh. apply orb_true_r.
Qed.

Lemma basename_no_slash p : has_char "/" (Path.basename p) = false.
Proof.
  destruct (split_at_last_slash p) as (h & t & -> & Ha & Ht & _).
  unfold Path.basename. rewrite Ha, string_length_app.
  replace (String.length h + String.length t - String.length h)
    with (String.length t) by lia.
  now rewrite substring_suffix.
Qed.

(** Joining a directory and a name without a slash, then taking the name
    back, gives the name. *)
Lemma basename_join D b : has_char "/" b = false -> Path.basename (Path.join D b) = b.
Proof.
  intros Hb. unfold Path.join. rewrite (no_slash_startswith b Hb).
  destruct (String.eqb_spec D "") as [-> | HD].
  - cbn [orb]. apply basename_app; auto.
  - cbn [orb]. destruct (Str.endswith D "/") eqn:He.
    + apply basename_app; auto.
    + rewrite <- string_app_assoc. apply basename_app; auto.
      right. apply endswith_app_slash.
Qed.

Lemma rstrip_slash_app_slash X : Str.rstrip_slash (X ++ "/") = Str.rstrip_slash X.
Proof.
  induction X as [| c X IH]; [reflexivity |].
  change (String c X ++ "/")%string with (String c (X ++ "/")).
  cbn [Str.rstrip_slash]. now rewrite IH.
Qed.

Lemma rstrip_slash_all X : Str.all_slashes X = true -> Str.rstrip_slash X = "".
Proof.
  induction X as [| c X IH]; intros H; [reflexivity |].
  cbn [Str.all_slashes] in H. apply andb_true_iff in H. destruct H as [Hc H].
  cbn [Str.rstrip_slash]. now rewrite (IH H), Hc.
Qed.

Lemma rstrip_slash_not_all h : Str.all_slashes h = false -> Str.rstrip_slash h <> "".
Proof.
  induction h as [| c h IH]; intros H; [discriminate |].
  cbn [Str.all_slashes] in H. cbn [Str.rstrip_slash].
  destruct (Str.rstrip_slash h) as [| d r] eqn:E; [| discriminate].
  destruct (Str.all_slashes h) eqn:Ha.
  - rewrite andb_true_r in H. rewrite H. discriminate.
  - now destruct (IH eq_refl).
Qed.

Lemma rstrip_slash_idem h : Str.rstrip_slash (Str.rstrip_slash h) = Str.rstrip_slash h.
Proof.
  induction h as [| c h IH]; [reflexivity |].
  cbn [Str.rstrip_slash]. destruct (Str.rstrip_slash h) as [| d r] eqn:E.
  - destruct (Ascii.eqb c "/") eqn:Hc; [reflexivity |].
    unfold Str.chr. cbn [Str.rstrip_slash]. now rewrite Hc.
  - cbn [Str.rstrip_slash] in *. now rewrite IH.
Qed.

Lemma all_slashes_app X Y :
  Str.all_slashes (X ++ Y) = Str.all_slashes X && Str.all_slashes Y.
Proof.
  induction X as [| c X IH]; [reflexivity |].
  change (String c X ++ Y)%string with (String c (X ++ Y)).
  cbn [Str.all_slashes]. now rewrite IH, andb_assoc.
Qed.

Lemma endswith_cons c s p :
  Str.endswith (String c s) p = String.eqb (String c s) p || Str.endswith s p.
Proof. reflexivity. Qed.

Lemma all_slashes_ends X : Str.all_slashes X = true -> X <> "" -> Str.endswith X "/" = true.
Proof.
  induction X as [| c X IH]; intros H Hne; [now destruct Hne |].
  cbn [Str.all_slashes] in H. apply andb_true_iff in H. destruct H as [Hc H].
  apply Ascii.eqb_eq in Hc. subst c. destruct X as [| d X]; [reflexivity |].
  rewrite endswith_cons, (IH H) by discriminate. apply orb_true_r.
Qed.

Lemma endswith_split X : Str.endswith X "/" = true -> exists Y, X = (Y ++ "/")%string.
Proof.
  induction X as [| c X IH]; intros H; [discriminate |].
  rewrite endswith_cons in H. apply orb_true_iff in H. destruct H as [H | H].
  - apply String.eqb_eq in H. rewrite H. now exists "".
  - destruct (IH H) as (Y & ->). now exists (String c Y).
Qed.

Lemma rstrip_slash_length X : String.length (Str.rstrip_slash X) <= String.length X.
Proof.
  induction X as [| c X IH]; [reflexivity |].
  cbn [Str.rstrip_slash]. destruct (Str.rstrip_slash X) as [| d r].
  - destruct (Ascii.eqb c "/"); simpl; lia.
  - simpl in *. lia.
Qed.

(** What [rstrip] leaves does not end with a slash. *)
Lemma rstrip_slash_fixed_no_end D :
  Str.rstrip_slash D = D -> Str.endswith D "/" = false.
Proof.
  intros H. destruct (Str.endswith D "/") eqn:E; [| reflexivity].
  apply endswith_split in E. destruct E as (Y & ->).
  rewrite rstrip_slash_app_slash in H.
  pose proof (rstrip_slash_length Y) as L. rewrite H, string_length_app in L.
  simpl in L. lia.
Qed.

Lemma dirname_split h t :
  has_char "/" t = false ->
  h = "" \/ Str.endswith h "/" = true ->
  Path.dirname (h ++ t)
  = if negb (String.eqb h "") && negb (Str.all_slashes h) then Str.rstrip_slash h else h.
Proof.
  intros Ht Hh. unfold Path.dirname. rewrite (after_last_slash_app h t Ht).
  assert (E : Str.after_last_slash h = String.length h).
  { destruct Hh as [-> | Hh]; [reflexivity | now apply after_last_slash_ends]. }
  now rewrite E, substring_prefix.
Qed.

(** Joining what [dirname] gives with a name without a slash, then taking
    the directory back, gives the same directory. *)
Lemma dirname_join p b :
  has_char "/" b = false -> Path.dirname (Path.join (Path.dirname p) b) = Path.dirname p.
Proof.
  intros Hb. destruct (split_at_last_slash p) as (h & t & -> & _ & Ht & Hh).
  rewrite (dirname_split h t Ht Hh).
  unfold Path.join. rewrite (no_slash_startswith b Hb).
  destruct (String.eqb_spec h "") as [-> | Hne]; cbn [negb andb].
  - exact (dirname_split "" b Hb (or_introl eq_refl)).
  - destruct (Str.all_slashes h) eqn:Ha; cbn [negb].
    + rewrite (all_slashes_ends h Ha Hne), orb_true_r.
      rewrite (dirname_split h b Hb (or_intror (all_slashes_ends h Ha Hne))).
      rewrite Ha, andb_false_r. reflexivity.
    + pose proof (rstrip_slash_not_all h Ha) as Hr.
      pose proof (rstrip_slash_idem h) as Hi.
      set (D := Str.rstrip_slash h) in *.
      destruct (String.eqb_spec D "") as [E | _]; [now destruct Hr |].
      rewrite (rstrip_slash_fixed_no_end D Hi). cbn [orb].
      rewrite <- string_app_assoc.
      rewrite (dirname_split (D ++ "/") b Hb (or_intror (endswith_app_slash D))).
      assert (Hd : Str.all_slashes D = false).
      { destruct (Str.all_slashes D) eqn:F; [| reflexivity].
        apply rstrip_slash_all in F. rewrite Hi in F. now destruct Hr. }
      rewrite all_slashes_app, Hd. cbn [andb negb].
      destruct (String.eqb_spec (D ++ "/") "") as [E | _].
      * destruct D; discriminate.
      * cbn [negb andb]. now rewrite rstrip_slash_app_slash.
Qed.

(** X9: the index file is copied into the directory of the output file,
    under its own file name. *)
Theorem copy_destination index_file data_out_path :
  Path.basename (destination index_file data_out_path) = Path.basename index_file
  /\ Path.dirname (destination index_file data_out_path) = Path.dirname data_out_path.
Proof.
  unfold destination. split.
  - apply basename_join, basename_no_slash.
  - apply dirname_join, basename_no_slash.
Qed.

(** * The order of a directory listing *)

Lemma ascii_compare_trans_le a b c :
  Ascii.compare a b <> Gt -> Ascii.compare b c <> Gt -> Ascii.compare a c <> Gt.
Proof.
  unfold Ascii.compare. rewrite !N.compare_le_iff. apply N.le_trans.
Qed.

Lemma string_leb_trans s1 s2 s3 :
  String.leb s1 s2 = true -> String.leb s2 s3 = true -> String.leb s1 s3 = true.
Proof.
  unfold String.leb. revert s2 s3.
  induction s1 as [| a s1 IH]; intros [| b s2] [| c s3]; simpl; try easy.
  unfold Ascii.compare.
  destruct (N.compare_spec (N_of_ascii a) (N_of_ascii b)) as [E1 | L1 | G1]; try easy;
    destruct (N.compare_spec (N_of_ascii b) (N_of_ascii c)) as [E2 | L2 | G2]; try easy;
    destruct (N.compare_spec (N_of_ascii a) (N_of_ascii c)) as [E3 | L3 | G3];
    try easy; try lia.
  apply IH.
Qed.

Lemma sorted_strongly l :
  Sorted (fun a b => String.leb a b = true) l ->
  StronglySorted (fun a b => String.leb a b = true) l.
Proof.
  apply Sorted_StronglySorted. intros a b c. apply string_leb_trans.
Qed.

(** A list has one sorted arrangement. *)
Lemma sorted_unique l1 l2 :
  Sorted (fun a b => String.leb a b = true) l1 ->
  Sorted (fun a b => String.leb a b = true) l2 ->
  Permutation l1 l2 -> l1 = l2.
Proof.
  intros S1 S2. apply sorted_strongly in S1. apply sorted_strongly in S2.
  revert l2 S2. induction S1 as [| a l1 S1 IH Ha]; intros l2 S2 P.
  - apply Permutation_nil in P. now subst.
  - destruct S2 as [| b l2 S2 Hb].
    + apply Permutation_sym, Permutation_nil in P. discriminate.
    + assert (E : a = b).
      { assert (Hin_b : In b (a :: l1))
          by (apply (Permutation_in _ (Permutation_sym P)); now left).
        assert (Hin_a : In a (b :: l2)) by (apply (Permutation_in _ P); now left).
        destruct Hin_b as [-> | Hin_b]; [reflexivity |].
        destruct Hin_a as [-> | Hin_a]; [reflexivity |].
        rewrite Forall_forall in Ha, Hb.
        apply String.leb_antisym; auto. }
      subst b. f_equal. apply IH; [exact S2 |].
      now apply Permutation_cons_inv in P.
Qed.

Lemma filter_perm {A} (f : A -> bool) l1 l2 :
  Permutation l1 l2 -> Permutation (filter f l1) (filter f l2).
Proof.
  induction 1 as [| x l1 l2 _ IH | x y l | l1 l2 l3 _ IH1 _ IH2]; simpl.
  - constructor.
  - destruct (f x); [now constructor | exact IH].
  - destruct (f x), (f y); try apply Permutation_refl. constructor.
  - now apply Permutation_trans with (filter f l2).
Qed.

Lemma sorted_perm_eq l1 l2 : Permutation l1 l2 -> sorted l1 = sorted l2.
Proof.
  intros P. apply sorted_unique; try apply StringSort_sorted.
  apply Permutation_trans with l1; [apply Permutation_sym, StringSort_perm |].
  apply Permutation_trans with l2; [exact P | apply StringSort_perm].
Qed.

Lemma for_each_ext {X S} (body1 body2 : X -> S -> M S) l s :
  (forall x s, body1 x s = body2 x s) -> for_each body1 l s = for_each body2 l s.
Proof.
  intros H. revert s. induction l as [| x l IH]; intros s; [reflexivity |].
  rewrite !for_each_cons, H. apply bind_ext. exact IH.
Qed.

Lemma condition_body_listing w ld index_samples index_conditions index_file row st :
  (forall dir, same_entries (listdir w dir) (ld dir)) ->
  condition_body (with_listdir w ld) index_samples index_conditions index_file row st
  = condition_body w index_samples index_conditions index_file row st.
Proof.
  intros H. unfold condition_body, os_listdir. destruct st as [data rm].
  destruct (Manifest.path row) as [dir | | | |]; try reflexivity.
  cbn [with_listdir listdir]. specialize (H dir). unfold same_entries in H.
  destruct (listdir w dir) as [l1 |], (ld dir) as [l2 |]; try easy.
  cbn [or_raise]. rewrite !bind_ret_l.
  pose proof (filter_perm keep l1 l2 H) as P.
  rewrite (Permutation_length P), (sorted_perm_eq _ _ P). reflexivity.
Qed.

(** X10: a run does not depend on the order in which [os.listdir] gives the
    entries of the directories: with the same entries in another order it
    ends the same way on the same events. *)
Theorem listing_order_irrelevant w ld conditions index_file data_out_path :
  (forall dir, same_entries (listdir w dir) (ld dir)) ->
  extract_rmsd (with_listdir w ld) conditions index_file data_out_path
  = extract_rmsd w conditions index_file data_out_path.
Proof.
  intros H.
  assert (E : accumulate (with_listdir w ld) conditions index_file
              = accumulate w conditions index_file).
  { unfold accumulate. cbn [with_listdir read_excel].
    apply bind_ext. intros ss. apply bind_ext. intros cs.
    apply for_each_ext. intros row st. now apply condition_body_listing. }
  unfold extract_rmsd. rewrite E. reflexivity.
Qed.

Lemma listing_order_irrelevant_witness :
  extract_rmsd
    (with_listdir demo_world
       (fun d => if String.eqb d "inputs/ins" then Some ["RMSD_s2_a.csv"; "RMSD_s3_b.csv"]
                 else listdir demo_world d))
    demo_conditions "data/index.xlsx" "results/out.csv"
  = extract_rmsd demo_world demo_conditions "data/index.xlsx" "results/out.csv".
Proof.
  apply listing_order_irrelevant. intros dir. unfold same_entries.
  destruct (String.eqb dir "inputs/ins") eqn:E.
  - apply String.eqb_eq in E. subst dir. cbn. apply perm_swap.
  - destruct (listdir demo_world dir); [apply Permutation_refl | exact I].
Defined.

(** * The main block *)

Lemma dirname_no_slash p : has_char "/" p = false -> Path.dirname p = "".
Proof. intros H. exact (dirname_split "" p H (or_introl eq_refl)). Qed.

Lemma dirname_slash p : has_char "/" p = true -> Path.dirname p <> "".
Proof.
  intros H. destruct (split_at_last_slash p) as (h & t & -> & _ & Ht & Hh).
  rewrite (dirname_split h t Ht Hh).
  rewrite has_char_app, Ht, orb_false_r in H.
  assert (Hne : h <> "") by (intros ->; discriminate).
  destruct (String.eqb_spec h "") as [E | _]; [now destruct Hne |].
  destruct (Str.all_slashes h) eqn:Ha; cbn [negb andb]; [exact Hne |].
  now apply rstrip_slash_not_all.
Qed.

(** X12: an output path without a directory part, [out.csv] for one, stops
    the script on the exception of [os.makedirs] before anything else is
    done: no directory made, no log set up, nothing read or written. *)
Theorem bare_output_name h w script argv args :
  has_char "/" (Args.out args) = false ->
  main h w script argv args = ([], (Raise OSError, [])).
Proof.
  intros H. unfold main. now rewrite (dirname_no_slash _ H).
Qed.

Lemma bare_output_name_witness :
  main demo_host demo_world "rmsd_stats_matlab.py" ["rmsd_stats_matlab.py"]
       (Args.Make "out.csv" "data/index.xlsx" None None "conditions.csv")
  = ([], (Raise OSError, [])).
Proof.
  exact (bare_output_name demo_host demo_world "rmsd_stats_matlab.py"
           ["rmsd_stats_matlab.py"]
           (Args.Make "out.csv" "data/index.xlsx" None None "conditions.csv") eq_refl).
Defined.

Lemma has_char_substring c s n m :
  has_char c s = false -> has_char c (substring n m s) = false.
Proof.
  revert n m. induction s as [| b s IH]; intros n m H.
  - now destruct n, m.
  - simpl in H. apply orb_false_iff in H. destruct H as [Hb H].
    destruct n as [| n].
    + destruct m as [| m]; [reflexivity |]. simpl. now rewrite Hb, IH.
    + simpl. now apply IH.
Qed.

Lemma stem_no_slash b : has_char "/" b = false -> has_char "/" (fst (splitext b)) = false.
Proof.
  intros H. unfold splitext.
  destruct (_ && _); cbn [fst]; [now apply has_char_substring | exact H].
Qed.

(** X13: without [--log], and with an output path that has a directory
    part, the script makes that directory, removes the log file of an earlier
    run when there is one, and sets the log up at the default level in the
    output directory, under the name of the script with [.log] for its
    extension. *)
Theorem default_log_beside_output h w script argv args :
  Args.log args = None ->
  Args.log_level args = None ->
  has_char "/" (Args.out args) = true ->
  fst (main h w script argv args)
  = MakeDirs (Path.dirname (Args.out args))
    :: (if path_exists h (default_log (Path.dirname (Args.out args)) script)
        then [Remove (default_log (Path.dirname (Args.out args)) script)]
        else [])
    ++ [BasicConfig (default_log (Path.dirname (Args.out args)) script) 20]
  /\ Path.dirname (default_log (Path.dirname (Args.out args)) script)
     = Path.dirname (Args.out args)
  /\ Path.basename (default_log (Path.dirname (Args.out args)) script)
     = (fst (splitext (Path.basename script)) ++ ".log")%string.
Proof.
  intros Hlog Hlevel Hout.
  assert (Hs : has_char "/" (fst (splitext (Path.basename script)) ++ ".log") = false).
  { rewrite has_char_app, (stem_no_slash _ (basename_no_slash script)). reflexivity. }
  split; [| split].
  - unfold main. destruct (String.eqb_spec (Path.dirname (Args.out args)) "") as [E | _].
    + now destruct (dirname_slash _ Hout).
    + rewrite Hlog, Hlevel. unfold create_log. cbn [dict_get log_level_dict find fst snd].
      change (String.eqb "DEBUG" "INFO") with false.
      change (String.eqb "INFO" "INFO") with true. cbv iota.
      now destruct (pipeline w argv args).
  - unfold default_log. now apply dirname_join.
  - unfold default_log. now apply basename_join.
Qed.

Lemma default_log_beside_output_witness :
  fst (main demo_host demo_world "/opt/tools/rmsd_stats_matlab.py" ["rmsd_stats_matlab.py"]
            demo_args)
  = [MakeDirs "results"; BasicConfig "results/rmsd_stats_matlab.log" 20].
Proof.
  exact (proj1 (default_log_beside_output demo_host demo_world
                  "/opt/tools/rmsd_stats_matlab.py" ["rmsd_stats_matlab.py"] demo_args
                  eq_refl eq_refl eq_refl)).
Defined.

Lemma recorded_all threshold t : (threshold <= 20)%Z -> recorded threshold t = t.
Proof.
  intros H. unfold recorded. induction t as [| e t IH]; [reflexivity |].
  cbn [filter]. rewrite IH.
  destruct e as [l msg | |]; try reflexivity.
  replace (threshold <=? levelno l)%Z with true; [reflexivity |].
  symmetry. apply Z.leb_le. destruct l; simpl; lia.
Qed.

Lemma recorded_none threshold t l : (40 < threshold)%Z -> logged l (recorded threshold t) = [].
Proof.
  intros H. unfold recorded. induction t as [| e t IH]; [reflexivity |].
  cbn [filter]. destruct e as [l' msg | |]; try exact IH.
  replace (threshold <=? levelno l')%Z with false; [exact IH |].
  symmetry. apply Z.leb_gt. destruct l'; simpl; lia.
Qed.

Lemma recorded_written threshold t file : written (recorded threshold t) file = written t file.
Proof.
  unfold recorded. induction t as [| e t IH]; [reflexivity |].
  cbn [filter]. destruct e as [l msg | f text | src dst].
  - destruct (threshold <=? levelno l)%Z; exact IH.
  - unfold written in *. cbn [flat_map]. now rewrite IH.
  - exact IH.
Qed.

Lemma main_events h w script argv args :
  snd (main h w script argv args)
  = if String.eqb (Path.dirname (Args.out args)) "" then raise OSError
    else match dict_get log_level_dict (match Args.log_level args with
                                        | None => "INFO"
                                        | Some l => l
                                        end) with
         | Some threshold =>
             (fst (pipeline w argv args), recorded threshold (snd (pipeline w argv args)))
         | None => raise (KeyError (match Args.log_level args with
                                    | None => "INFO"
                                    | Some l => l
                                    end))
         end.
Proof.
  unfold main, create_log.
  destruct (String.eqb (Path.dirname (Args.out args)) ""); [reflexivity |].
  destruct (dict_get log_level_dict _); [| reflexivity].
  now destruct (pipeline w argv args).
Qed.

Lemma pipeline_level w argv args lv :
  pipeline w argv (with_level args lv) = pipeline w argv args.
Proof. reflexivity. Qed.

(** X14: the script logs nothing below the level INFO and nothing above
    ERROR: [--log-level DEBUG] and [--log-level INFO] give the events of the
    default, and under [--log-level CRITICAL] the run ends the same way and
    writes the same files but not one record gets to the log, the errors that
    end a run among them. *)
Theorem log_level_effect h w script argv args :
  snd (main h w script argv (with_level args (Some "DEBUG")))
  = snd (main h w script argv (with_level args None))
  /\ snd (main h w script argv (with_level args (Some "INFO")))
     = snd (main h w script argv (with_level args None))
  /\ fst (snd (main h w script argv (with_level args (Some "CRITICAL"))))
     = fst (snd (main h w script argv (with_level args None)))
  /\ (forall l, logged l (snd (snd (main h w script argv
                                         (with_level args (Some "CRITICAL"))))) = [])
  /\ (forall file,
         written (snd (snd (main h w script argv (with_level args (Some "CRITICAL"))))) file
         = written (snd (snd (main h w script argv (with_level args None)))) file).
Proof.
  rewrite !main_events, !pipeline_level.
  cbn [with_level Args.out Args.log_level].
  change (dict_get log_level_dict "DEBUG") with (Some 10%Z).
  change (dict_get log_level_dict "INFO") with (Some 20%Z).
  change (dict_get log_level_dict "CRITICAL") with (Some 50%Z).
  destruct (String.eqb (Path.dirname (Args.out args)) "").
  - repeat split; reflexivity.
  - cbn [fst snd]. rewrite !recorded_all by lia.
    repeat split.
    + intros l. apply recorded_none. lia.
    + intros file. apply recorded_written.
Qed.

(** * Further properties of [get_conditions] *)

Lemma not_blank_wide l : 2 <= List.length l -> is_blank l = false.
Proof. destruct l as [| a [| b l]]; simpl; intros H; first [lia | reflexivity]. Qed.

(** X15: a manifest whose lines all have the same number of fields, two at
    least and not three, is refused: [get_conditions] ends on the
    [ValueError] of the three labels given to a table of another width. *)
Theorem manifest_width w file lines k :
  read_lines w file = Some lines ->
  lines <> [] ->
  (forall l, In l lines -> List.length l = k) ->
  2 <= k ->
  k <> 3 ->
  get_conditions w file = (Raise ValueError, []).
Proof.
  intros Hr Hne Hk H2 H3. unfold get_conditions, read_csv_noheader.
  rewrite Hr. cbn [or_raise]. rewrite bind_ret_l.
  rewrite filter_all
    by (intros l Hl; rewrite (not_blank_wide l); [reflexivity | rewrite (Hk l Hl); exact H2]).
  destruct lines as [| first rest]; [now destruct Hne |].
  rewrite (Hk first (or_introl eq_refl)).
  rewrite existsb_none.
  - rewrite bind_ret_l. apply Nat.eqb_neq in H3. now rewrite H3.
  - intros l Hl. rewrite (Hk l (or_intror Hl)). apply Nat.ltb_irrefl.
Qed.

Lemma manifest_width_witness :
  get_conditions
    (with_lines demo_world (fun _ => Some [["WT"; "inputs/WT"]; ["KO"; "inputs/KO"]]))
    "two.csv"
  = (Raise ValueError, []).
Proof.
  refine (manifest_width
            (with_lines demo_world (fun _ => Some [["WT"; "inputs/WT"]; ["KO"; "inputs/KO"]]))
            "two.csv" [["WT"; "inputs/WT"]; ["KO"; "inputs/KO"]] 2
            eq_refl _ _ (le_n 2) _); try discriminate.
  intros l [<- | [<- | []]]; reflexivity.
Defined.

(** * The group of the pattern is greedy *)

(** When some split of [s] lets the rest of the pattern match, the group
    matches. *)
Lemma group_complete p g rest :
  g <> "" -> has_char Str.newline g = false ->
  Re.match_here p rest <> None ->
  Re.match_here (Re.GroupDotPlus :: p) (g ++ rest) <> None.
Proof.
  intros Hg Hn Hp. induction g as [| b g IH]; [now destruct Hg |].
  simpl in Hn. apply orb_false_iff in Hn. destruct Hn as [Hb Hn].
  change (String b g ++ rest)%string with (String b (g ++ rest)).
  rewrite match_here_group_cons, Hb.
  destruct (Re.match_here (Re.GroupDotPlus :: p) (g ++ rest)) eqn:E; [discriminate |].
  destruct g as [| c g].
  - change ("" ++ rest)%string with rest.
    destruct (Re.match_here p rest); [discriminate | now destruct Hp].
  - exfalso. apply IH; [discriminate | exact Hn | reflexivity].
Qed.

(** X16: the group takes the longest text it can: when the pattern from its
    group on gives [g] at the start of [s], no longer start of [s] without a
    newline is followed by a match of the rest of the pattern. *)
Theorem group_is_longest s g g' rest' :
  Re.match_here group_pattern s = Some g ->
  s = (g' ++ rest')%string ->
  String.length g < String.length g' ->
  has_char Str.newline g' = false ->
  Re.match_here tail_pattern rest' = None.
Proof.
  unfold group_pattern. revert g g'.
  induction s as [| b s IH]; intros g g' H Hs Hlen Hn; [discriminate |].
  rewrite match_here_group_cons in H.
  destruct (Ascii.eqb b Str.newline) eqn:Hb; [discriminate |].
  destruct g' as [| b' g']; [simpl in Hlen; lia |].
  injection Hs as <- ->.
  simpl in Hn. apply orb_false_iff in Hn. destruct Hn as [_ Hn].
  destruct (Re.match_here (Re.GroupDotPlus :: tail_pattern) (g' ++ rest')) as [y |] eqn:E.
  - injection H as <-. simpl in Hlen.
    apply (IH y g' eq_refl eq_refl); [lia | exact Hn].
  - destruct (Re.match_here tail_pattern (g' ++ rest')) eqn:F; [| discriminate].
    injection H as <-. simpl in Hlen.
    destruct (Re.match_here tail_pattern rest') eqn:G; [| reflexivity].
    exfalso. apply (group_complete tail_pattern g' rest'); try assumption.
    + destruct g'; [simpl in Hlen; lia | discriminate].
    + now rewrite G.
Qed.

Lemma group_is_longest_witness :
  Re.match_here tail_pattern ".csv" = None.
Proof.
  exact (group_is_longest "a_b_.csv" "a" "a_b_" ".csv" eq_refl eq_refl
           (le_n_S _ _ (le_n_S _ _ (le_0_n _))) eq_refl).
Defined.

(** * The colour of a condition *)




(** * Directories and files that cannot be read *)




(** X20: a sample file that is not what the loop expects ends the run on an
    exception when the run gets to it: the exception of the reader when the
    file does not load, [KeyError] on [frames] when that column is missing,
    in both cases before anything is logged for the file; and [KeyError] on
    [RMSD] when only that column is missing, after the record of the frames
    and the two lookups. *)
Theorem broken_sample_file w index_file data_out_path index_samples index_conditions
        before after row dir entries earlier later item st t0 data t1 sample :
  read_excel w index_file 0 = Some index_samples ->
  read_excel w index_file 1 = Some index_conditions ->
  for_each (condition_body w index_samples index_conditions index_file) before
           (Data.empty, []) = (Ok st, t0) ->
  Manifest.path row = Text dir ->
  listdir w dir = Some entries ->
  sorted (filter keep entries) = earlier ++ item :: later ->
  for_each (item_body w index_samples index_conditions index_file dir
                      (Manifest.condition row)) earlier (fst st) = (Ok data, t1) ->
  Re.search pattern item = Some sample ->
  (read_csv w (Path.join dir item) = None ->
   extract_rmsd w (before ++ row :: after) index_file data_out_path
   = (Raise ReadError,
      t0 ++ Log INFO (msg_retrieving (List.length (filter keep entries))
                                     (Manifest.condition row)) :: t1 ++ []))
  /\ (forall df,
         read_csv w (Path.join dir item) = Some df ->
         has_column df "frames" = false ->
         extract_rmsd w (before ++ row :: after) index_file data_out_path
         = (Raise (KeyError "frames"),
            t0 ++ Log INFO (msg_retrieving (List.length (filter keep entries))
                                           (Manifest.condition row)) :: t1 ++ []))
  /\ (forall df si ci,
         read_csv w (Path.join dir item) = Some df ->
         has_column df "frames" = true ->
         first_value (index_values index_samples sample) = Some si ->
         first_value (index_values_cell index_conditions (Manifest.condition row)) = Some ci ->
         has_column df "RMSD" = false ->
         extract_rmsd w (before ++ row :: after) index_file data_out_path
         = (Raise (KeyError "RMSD"),
            t0 ++ Log INFO (msg_retrieving (List.length (filter keep entries))
                                           (Manifest.condition row))
               :: t1 ++ [Log INFO (msg_frames sample (List.length (values df)))])).
Proof.
  intros E0 E1 Hb Hp Hl Hf He F1.
  pose proof (first_failure w index_samples index_conditions index_file data_out_path
                E0 E1 before after row dir entries earlier later item st t0 data t1
                Hb Hp Hl Hf He) as FF.
  split; [| split].
  - intros F2. apply (FF (Raises ReadError)).
    now apply (item_body_no_file _ _ _ _ _ _ _ _ sample).
  - intros df F2 F3. apply (FF (Raises (KeyError "frames"))).
    now apply (item_body_no_frames _ _ _ _ _ _ _ _ sample df).
  - intros df si ci F2 F3 F4 F5 F6. apply (FF (Raises (KeyError "RMSD"))).
    now apply (item_body_no_RMSD _ _ _ _ _ _ _ _ sample df si ci).
Qed.

Lemma broken_sample_file_witness :
  extract_rmsd
    (with_listdir demo_world (fun d => if String.eqb d "inputs/WT"
                                       then Some ["RMSD_s1_x.csv"; "RMSD_s2_y.csv"]
                                       else None))
    [Manifest.Row (Text "WT") (Text "inputs/WT") (Text "#0303fc")]
    "data/index.xlsx" "results/out.csv"
  = (Raise ReadError,
     [Log INFO (msg_retrieving 2 (Text "WT")); Log INFO (msg_frames "s1" 3)]).
Proof.
  refine (proj1 (broken_sample_file
                   (with_listdir demo_world
                      (fun d => if String.eqb d "inputs/WT"
                                then Some ["RMSD_s1_x.csv"; "RMSD_s2_y.csv"]
                                else None))
                   "data/index.xlsx" "results/out.csv"
                   [(Text "s1", Int 0); (Text "s2", Int 1); (Text "s3", Int 2)] [(Text "WT", Int 0); (Text "insertions", Int 1)]
                   [] [] (Manifest.Row (Text "WT") (Text "inputs/WT") (Text "#0303fc"))
                   "inputs/WT" ["RMSD_s1_x.csv"; "RMSD_s2_y.csv"]
                   ["RMSD_s1_x.csv"] [] "RMSD_s2_y.csv" (Data.empty, []) []
                   (of_rows [OutRow (Int 0) (Int 0) (Int 1) (Float "0.1"); OutRow (Int 0) (Int 0) (Int 2) (Float "0.2");
                             OutRow (Int 0) (Int 0) (Int 3) (Float "0.3")])
                   [Log INFO (msg_frames "s1" 3)] "s2"
                   eq_refl eq_refl eq_refl eq_refl eq_refl eq_refl eq_refl eq_refl) eq_refl).
Defined.
